(** * Animation Studio: the code generator and the component registry

    A shallow embedding of [core/code-generator.ts], [core/types.ts] and
    [registry/ComponentRegistry.ts], with the properties of the generated
    imports, usage snippet and CSS block, and of duplicate registration.

    Conventions of the embedding:
    - a JavaScript object used as a record is a [Record]; an object used as a
      dictionary and only read by key ([propSchema]) is a [gmap string _],
      the finite map of its own properties, and a read [obj[key]] also finds
      what every object inherits from [Object.prototype]; an object that is
      iterated ([props], through [Object.entries]) is the list of its
      entries in iteration order; the registry's [Map] is the list of its
      entries in insertion order;
    - a field that TypeScript declares as required is present, but for the
      two fields that [registerComponent] checks again at run time;
    - an optional field [f?: T] is an [option T], [None] standing for
      [undefined];
    - prop values are the primitive values of JavaScript; numbers are kept
      behind the interface [JSNumber], because the generator only compares,
      prints and tests them, and never computes with them;
    - [console.log] calls are not modelled. *)

From Stdlib Require Import ZArith String Ascii List Bool DecimalString.
From stdpp Require Import base option list strings gmap pretty.

Local Open Scope string_scope.

(** ** The fragment of the JavaScript runtime the generator relies on *)

Module JS.

(** Numbers, as far as the generator observes them. *)
Class JSNumber := {
  number : Type;
  (** [x === y] on two numbers *)
  Number_strictEq : number -> number -> bool;
  (** [String(x)], the text a template literal inserts for [x] *)
  Number_toString : number -> string;
  (** [x > 0] *)
  Number_gtZero : number -> bool;
  (** [Boolean(x)] *)
  Number_toBoolean : number -> bool;
  (** [Number(s)], the coercion [>] applies to a string operand *)
  String_toNumber : string -> number;
  (** the number denoted by an integer literal *)
  Number_ofZ : Z -> number;
  (** [0 > 0] is false *)
  Number_gtZero_0 : Number_gtZero (Number_ofZ 0) = false
}.

Section Values.
Context `{JSNumber}.

(** Primitive values: what a prop of type number, string, boolean, color,
    bezier, select or range holds. *)
Inductive value : Type :=
| VUndefined
| VNull
| VBoolean (b : bool)
| VNumber (n : number)
| VString (s : string).

(** [a === b] *)
Definition strictEq (a b : value) : bool :=
  match a, b with
  | VUndefined, VUndefined => true
  | VNull, VNull => true
  | VBoolean x, VBoolean y => Bool.eqb x y
  | VNumber x, VNumber y => Number_strictEq x y
  | VString x, VString y => String.eqb x y
  | _, _ => false
  end.

(** [typeof v], restricted to the answers the generator tests for *)
Inductive typeTag : Type :=
| TString | TBoolean | TNumber | TUndefined | TObject.

Definition typeof (v : value) : typeTag :=
  match v with
  | VUndefined => TUndefined
  | VNull => TObject
  | VBoolean _ => TBoolean
  | VNumber _ => TNumber
  | VString _ => TString
  end.

(** The text inserted for [v] by a template literal. *)
Definition toString (v : value) : string :=
  match v with
  | VUndefined => "undefined"
  | VNull => "null"
  | VBoolean true => "true"
  | VBoolean false => "false"
  | VNumber n => Number_toString n
  | VString s => s
  end.

(** [v ? _ : _] and [!v]: truthiness. *)
Definition toBoolean (v : value) : bool :=
  match v with
  | VUndefined | VNull => false
  | VBoolean b => b
  | VNumber n => Number_toBoolean n
  | VString s => negb (String.eqb s "")
  end.

(** [v > 0]: the operand is converted to a number first; [undefined]
    becomes NaN, [null] and [false] become 0, [true] becomes 1. *)
Definition gtZero (v : value) : bool :=
  match v with
  | VUndefined | VNull => false
  | VBoolean b => b
  | VNumber n => Number_gtZero n
  | VString s => Number_gtZero (String_toNumber s)
  end.
End Values.

(** Arrays of strings. *)
Definition push {A} (arr : list A) (x : A) : list A := (arr ++ [x])%list.
Definition unshift {A} (arr : list A) (x : A) : list A := x :: arr.

Fixpoint join (sep : string) (arr : list string) : string :=
  match arr with
  | [] => ""
  | [x] => x
  | x :: rest => x +:+ sep +:+ join sep rest
  end.

(** The characters a Rocq string literal cannot hold directly. *)
Definition dquote : string := String "034"%char EmptyString.
Definition newline : string := String "010"%char EmptyString.

(** An array element or a property that may be [undefined]: [join] prints
    [undefined] as the empty string, a template literal prints it as the
    word. *)
Definition joinText (x : option string) : string :=
  match x with
  | Some s => s
  | None => ""
  end.

Definition templateText (x : option string) : string :=
  match x with
  | Some s => s
  | None => "undefined"
  end.

(** The properties that every object inherits from [Object.prototype];
    each is a function or an object, hence truthy, and has no property of
    its own that the generator reads. *)
Definition objectPrototypeNames : list string :=
  ["constructor"; "hasOwnProperty"; "isPrototypeOf"; "propertyIsEnumerable";
   "toLocaleString"; "toString"; "valueOf"; "__proto__";
   "__defineGetter__"; "__defineSetter__"; "__lookupGetter__"; "__lookupSetter__"].

Definition inherited (key : string) : bool :=
  existsb (String.eqb key) objectPrototypeNames.

End JS.
Import JS.

(** ** [core/types.ts] *)

Inductive PropType : Type :=
| number_t | string_t | boolean_t | color_t | bezier_t | select_t | range_t.

Inductive StateMode : Type := toggle | button.

(** [ComponentType<any>]: a function or class, or an object that
    [forwardRef] or [memo] returns; the generator reads its [name] property,
    which a function or class has and such an object has not. *)
Record ComponentType : Type := { fn_name : option string }.

Module PropConfig.
Section WithNumber.
Context `{JSNumber}.
Record t : Type := {
  label : string;
  type : PropType;
  defaultValue : value;
  min : option number;
  max : option number;
  step : option number;
  options : option (list (string * value));
  description : option string;
  isAnimationProp : option bool;
  validate : option (value -> bool);
  transform : option (value -> string)
}.
End WithNumber.
End PropConfig.

Module AdditionalImport.
Record t : Type := {
  name : string;
  path : string;
  isType : option bool
}.
End AdditionalImport.

Module ComponentDefinition.
Section WithNumber.
Context `{JSNumber}.

(** The fields of a definition; [C] and [S] are what the fields
    [component] and [propSchema] hold. *)
Record shape (C S : Type) : Type := {
  id : string;
  name : string;
  description : string;
  component : C;
  propSchema : S;
  defaultProps : list (string * value);
  stateMode : option StateMode;
  category : option string;
  tags : option (list string);
  importPath : string;
  additionalImports : option (list AdditionalImport.t);
  componentCode : option string;
  previewWrapper : option ComponentType
}.

(** A definition as the interface declares it: both fields are there. *)
Definition t : Type := shape ComponentType (gmap string PropConfig.t).

(** A definition as [registerComponent] may receive it from JavaScript:
    either field may be missing. *)
Definition received : Type :=
  shape (option ComponentType) (option (gmap string PropConfig.t)).
End WithNumber.
Arguments id {_ C S} _.
Arguments name {_ C S} _.
Arguments description {_ C S} _.
Arguments component {_ C S} _.
Arguments propSchema {_ C S} _.
Arguments defaultProps {_ C S} _.
Arguments stateMode {_ C S} _.
Arguments category {_ C S} _.
Arguments tags {_ C S} _.
Arguments importPath {_ C S} _.
Arguments additionalImports {_ C S} _.
Arguments componentCode {_ C S} _.
Arguments previewWrapper {_ C S} _.
Arguments Build_shape {_ C S}.

Section Received.
Context `{JSNumber}.

(** The object that a declared definition is at run time. *)
Definition asReceived (definition : t) : received :=
  {| id := id definition;
     name := name definition;
     description := description definition;
     component := Some (component definition);
     propSchema := Some (propSchema definition);
     defaultProps := defaultProps definition;
     stateMode := stateMode definition;
     category := category definition;
     tags := tags definition;
     importPath := importPath definition;
     additionalImports := additionalImports definition;
     componentCode := componentCode definition;
     previewWrapper := previewWrapper definition |}.
End Received.
End ComponentDefinition.

Module AnimationConfig.
Section WithNumber.
Context `{JSNumber}.
Record t : Type := {
  componentId : string;
  props : list (string * value);
  isActive : bool
}.
End WithNumber.
End AnimationConfig.

Module GeneratedCode.
Record t : Type := {
  componentCode : string;
  usageCode : string;
  cssCode : option string;
  imports : list string
}.
End GeneratedCode.

(** ** [core/code-generator.ts] *)

Module CodeGenerator.
Section WithNumber.
Context `{JSNumber}.

(** Truthiness of an optional boolean field ([imp.isType],
    [propConfig?.isAnimationProp]): only a present [true] passes. *)
Definition flag (b : option bool) : bool :=
  match b with
  | Some true => true
  | _ => false
  end.

(** [`import { ${names.join(', ')} } from '${path}'`] *)
Definition importLine (names : list string) (path : string) : string :=
  "import { " +:+ join ", " names +:+ " } from '" +:+ path +:+ "'".

(** [`import type { ${names.join(', ')} } from '${path}'`] *)
Definition importTypeLine (names : list string) (path : string) : string :=
  "import type { " +:+ join ", " names +:+ " } from '" +:+ path +:+ "'".

(** The body of [definition.additionalImports.forEach]: one step on the
    pair of arrays [typeImports], [valueImports]. *)
Definition sortImport (acc : list string * list string)
    (imp : AdditionalImport.t) : list string * list string :=
  let '(typeImports, valueImports) := acc in
  if flag (AdditionalImport.isType imp)
  then (push typeImports (AdditionalImport.name imp), valueImports)
  else (typeImports, push valueImports (AdditionalImport.name imp)).

Definition generateImports (definition : ComponentDefinition.t) : list string :=
  let imports : list string := [] in
  let mainImportNames : list (option string) :=
    [fn_name (ComponentDefinition.component definition)] in
  let '(imports, mainImportNames) :=
    match ComponentDefinition.additionalImports definition with
    | Some additionalImports =>
        let '(typeImports, valueImports) :=
          fold_left sortImport additionalImports ([], []) in
        let imports :=
          if (0 <? length typeImports)%nat
          then push imports
                 (importTypeLine typeImports
                    (ComponentDefinition.importPath definition))
          else imports in
        let mainImportNames :=
          if (0 <? length valueImports)%nat
          then (mainImportNames ++ map Some valueImports)%list
          else mainImportNames in
        (imports, mainImportNames)
    | None => (imports, mainImportNames)
    end in
  unshift imports
    (importLine (map joinText mainImportNames)
       (ComponentDefinition.importPath definition)).

Definition generateComponentCode (definition : ComponentDefinition.t) : string :=
  "// Component is defined in: "
    +:+ ComponentDefinition.importPath definition +:+ newline
    +:+ "// Use the import statement above to use this component".

(** [`      ${key}=${formattedValue}`] *)
Definition attributeLine (key formattedValue : string) : string :=
  "      " +:+ key +:+ "=" +:+ formattedValue.

(** What [definition.propSchema[key]] evaluates to when it is not
    [undefined]: the [PropConfig] that the schema holds under [key], or,
    for a name of [Object.prototype] that the schema does not hold, the
    member that the schema inherits. *)
Inductive schemaMember : Type :=
| OwnConfig (propConfig : PropConfig.t)
| InheritedMember.

Definition schemaLookup (definition : ComponentDefinition.t) (key : string)
    : option schemaMember :=
  match ComponentDefinition.propSchema definition !! key with
  | Some propConfig => Some (OwnConfig propConfig)
  | None => if inherited key then Some InheritedMember else None
  end.

(** [propConfig.defaultValue], [propConfig.transform] and
    [propConfig.isAnimationProp]: an inherited member has none of them. *)
Definition memberDefaultValue (member : schemaMember) : value :=
  match member with
  | OwnConfig propConfig => PropConfig.defaultValue propConfig
  | InheritedMember => VUndefined
  end.

Definition memberTransform (member : schemaMember) : option (value -> string) :=
  match member with
  | OwnConfig propConfig => PropConfig.transform propConfig
  | InheritedMember => None
  end.

Definition memberIsAnimationProp (member : schemaMember) : option bool :=
  match member with
  | OwnConfig propConfig => PropConfig.isAnimationProp propConfig
  | InheritedMember => None
  end.

(** The body of [Object.entries(config.props).forEach] in
    [generateUsageCode]: one step on the array [lines]; every [return]
    leaves [lines] as it is. *)
Definition addConfiguredProp (definition : ComponentDefinition.t)
    (lines : list string) (entry : string * value) : list string :=
  let '(key, value) := entry in
  match schemaLookup definition key with
  | None => lines
  | Some propConfig =>
      if strictEq value (memberDefaultValue propConfig) then lines
      else if strictEq value (VString "")
              && strictEq (memberDefaultValue propConfig) (VString "")
      then lines
      else
        match memberTransform propConfig with
        | Some transform =>
            let formattedValue := transform value in
            if String.eqb formattedValue "undefined" then lines
            else push lines (attributeLine key formattedValue)
        | None =>
            match typeof value with
            | TString =>
                let formattedValue := dquote +:+ toString value +:+ dquote in
                push lines (attributeLine key formattedValue)
            | TBoolean =>
                let formattedValue :=
                  if toBoolean value then "true" else "{false}" in
                if negb (toBoolean value) then lines
                else push lines (attributeLine key formattedValue)
            | _ =>
                let formattedValue := "{" +:+ toString value +:+ "}" in
                push lines (attributeLine key formattedValue)
            end
        end
  end.

(** The lines pushed before the configured props. *)
Definition usageHeader (definition : ComponentDefinition.t) : list string :=
  let componentName :=
    templateText (fn_name (ComponentDefinition.component definition)) in
  let lines : list string := [] in
  let lines := push lines "// Usage Example" in
  let lines := push lines "'use client'" in
  let lines := push lines "" in
  let lines := push lines "import { useState } from 'react'" in
  let lines := push lines
    ("import { " +:+ componentName +:+ " } from '"
       +:+ ComponentDefinition.importPath definition +:+ "'") in
  let lines := push lines "" in
  let lines := push lines "export function Example() {" in
  let lines := push lines "  const [checked, setChecked] = useState(false)" in
  let lines := push lines "" in
  let lines := push lines "  return (" in
  let lines := push lines ("    <" +:+ componentName) in
  let lines := push lines "      checked={checked}" in
  let lines := push lines "      onCheckedChange={setChecked}" in
  lines.

(** The array [lines] just before [lines.join]. *)
Definition usageLines (config : AnimationConfig.t)
    (definition : ComponentDefinition.t) : list string :=
  let lines := usageHeader definition in
  let lines :=
    fold_left (addConfiguredProp definition) (AnimationConfig.props config) lines in
  let lines := push lines "    />" in
  let lines := push lines "  )" in
  let lines := push lines "}" in
  lines.

Definition generateUsageCode (config : AnimationConfig.t)
    (definition : ComponentDefinition.t) : string :=
  join newline (usageLines config definition).

(** The body of [Object.entries(config.props).forEach] in
    [generateCSSCode]: one step on the array [cssProps]. *)
Definition addCssProp (definition : ComponentDefinition.t)
    (cssProps : list string) (entry : string * value) : list string :=
  let '(key, value) := entry in
  match schemaLookup definition key with
  | None => cssProps
  | Some propConfig =>
      if negb (flag (memberIsAnimationProp propConfig)) then cssProps
      else if strictEq value (memberDefaultValue propConfig) then cssProps
      else if String.eqb key "duration" then
        push cssProps ("  transition-duration: " +:+ toString value +:+ "ms;")
      else if String.eqb key "timingFunction" then
        push cssProps ("  transition-timing-function: " +:+ toString value +:+ ";")
      else if String.eqb key "delay" then
        if gtZero value
        then push cssProps ("  transition-delay: " +:+ toString value +:+ "ms;")
        else cssProps
      else cssProps
  end.

(** The array [cssProps] after the loop. *)
Definition cssLines (config : AnimationConfig.t)
    (definition : ComponentDefinition.t) : list string :=
  fold_left (addCssProp definition) (AnimationConfig.props config) [].

Definition generateCSSCode (config : AnimationConfig.t)
    (definition : ComponentDefinition.t) : option string :=
  let cssProps := cssLines config definition in
  if (length cssProps =? 0)%nat then None
  else Some (".animated-element {" +:+ newline
               +:+ join newline cssProps +:+ newline +:+ "}").

(** [a || b] on an optional string and a string: the left operand when
    it is truthy, that is, present and not empty. *)
Definition orElse (a : option string) (b : string) : string :=
  match a with
  | Some s => if String.eqb s "" then b else s
  | None => b
  end.

Definition generateCode (config : AnimationConfig.t)
    (definition : ComponentDefinition.t) : GeneratedCode.t :=
  let imports := generateImports definition in
  let componentCode :=
    orElse (ComponentDefinition.componentCode definition)
           (generateComponentCode definition) in
  let usageCode := generateUsageCode config definition in
  let cssCode := generateCSSCode config definition in
  {| GeneratedCode.componentCode := componentCode;
     GeneratedCode.usageCode := usageCode;
     GeneratedCode.cssCode := cssCode;
     GeneratedCode.imports := imports |}.

End WithNumber.
End CodeGenerator.

(** ** [registry/ComponentRegistry.ts] *)

(** A JavaScript [Map] with string keys: its entries in insertion order,
    every key at most once. *)
Module JSMap.
Section Ops.
Context {V : Type}.

Definition t : Type := list (string * V).

Fixpoint get (m : t) (k : string) : option V :=
  match m with
  | [] => None
  | (k', v) :: rest => if String.eqb k' k then Some v else get rest k
  end.

Definition has (m : t) (k : string) : bool :=
  match get m k with
  | Some _ => true
  | None => false
  end.

(** [m.set(k, v)]: an existing key keeps its place and takes the new
    value, a new key goes last. *)
Fixpoint set (m : t) (k : string) (v : V) : t :=
  match m with
  | [] => [(k, v)]
  | (k', v') :: rest =>
      if String.eqb k' k then (k', v) :: rest else (k', v') :: set rest k v
  end.

(** [m.delete(k)]: the map without [k]. *)
Fixpoint delete (m : t) (k : string) : t :=
  match m with
  | [] => []
  | (k', v') :: rest =>
      if String.eqb k' k then rest else (k', v') :: delete rest k
  end.

Definition values (m : t) : list V := map snd m.

Definition clear (m : t) : t := [].
End Ops.
Arguments t : clear implicits.
End JSMap.

(** A JavaScript object used as a dictionary and iterated with
    [Object.entries]: its entries in iteration order, which is the keys
    that are array indices in ascending order, then the other keys in the
    order they were added. *)
Module JSObject.

Definition digit (c : ascii) : option N :=
  let n := N_of_ascii c in
  if (48 <=? n)%N && (n <=? 57)%N then Some (n - 48)%N else None.

Fixpoint digits (acc : N) (s : string) : option N :=
  match s with
  | EmptyString => Some acc
  | String c rest =>
      match digit c with
      | Some d => digits (10 * acc + d)%N rest
      | None => None
      end
  end.

(** The array index that a key denotes: the key is [0], or digits without
    a leading zero, and the number is below 2^32 - 1. *)
Definition arrayIndex (key : string) : option N :=
  match key with
  | EmptyString => None
  | String c rest =>
      if Ascii.eqb c "0" then
        match rest with
        | EmptyString => Some 0%N
        | String _ _ => None
        end
      else
        match digits 0 key with
        | Some n => if (n <? 4294967295)%N then Some n else None
        | None => None
        end
  end.

Section Ops.
Context {V : Type}.

(** Where a new array index goes: before the first key that is a larger
    index or no index. *)
Fixpoint insertIndex (i : N) (key : string) (v : V) (o : list (string * V))
    : list (string * V) :=
  match o with
  | [] => [(key, v)]
  | (k', v') :: rest =>
      match arrayIndex k' with
      | Some j =>
          if (j <? i)%N then (k', v') :: insertIndex i key v rest
          else (key, v) :: o
      | None => (key, v) :: o
      end
  end.

(** [{ ...o, [key]: v }]: a key that is there keeps its place and takes
    the new value; a new array index goes among the indices; any other new
    key goes last. *)
Definition set (o : list (string * V)) (key : string) (v : V) : list (string * V) :=
  if JSMap.has o key then JSMap.set o key v
  else
    match arrayIndex key with
    | Some i => insertIndex i key v o
    | None => (o ++ [(key, v)])%list
    end.
End Ops.
End JSObject.

(** [new Error(message)] *)
Record Error : Type := { message : string }.

(** Computations on the module-level [componentRegistry] that may throw:
    a state and exception monad. A [throw] leaves the state as it is at
    that point. *)
Module Eff.
Inductive outcome (A : Type) : Type :=
| Returned (a : A)
| Thrown (e : Error).
Arguments Returned {A} a.
Arguments Thrown {A} e.

Definition M (S A : Type) : Type := S -> outcome A * S.

Definition ret {S A} (a : A) : M S A := fun s => (Returned a, s).

Definition bind {S A B} (c : M S A) (k : A -> M S B) : M S B :=
  fun s =>
    match c s with
    | (Returned a, s') => k a s'
    | (Thrown e, s') => (Thrown e, s')
    end.

Definition throw {S A} (e : Error) : M S A := fun s => (Thrown e, s).

(** read the state through [f] *)
Definition reads {S A} (f : S -> A) : M S A := fun s => (Returned (f s), s).

(** replace the state by [f] of it *)
Definition update {S} (f : S -> S) : M S unit := fun s => (Returned tt, f s).
End Eff.

Declare Scope eff_scope.
Delimit Scope eff_scope with eff.
Notation "'let*' x ':=' c 'in' k" := (Eff.bind c (fun x => k))
  (at level 10, x name, c at level 100, k at level 200) : eff_scope.
Notation "'run' c 'then' k" := (Eff.bind c (fun _ => k))
  (at level 10, c at level 100, k at level 200) : eff_scope.

Module ComponentRegistry.
Section WithNumber.
Context `{JSNumber}.

(** The type of the module-level constant [componentRegistry]. *)
Definition registry : Type := JSMap.t ComponentDefinition.received.

Definition M (A : Type) : Type := Eff.M registry A.

(** [Boolean(o)] for a field that holds an object or is missing: a
    component and a prop schema are objects, and every object is truthy;
    [undefined] is not. *)
Definition objectToBoolean {A} (o : option A) : bool :=
  match o with
  | Some _ => true
  | None => false
  end.

Definition registerComponent (definition : ComponentDefinition.received) : M unit :=
  (let* present := Eff.reads (fun componentRegistry =>
                JSMap.has componentRegistry (ComponentDefinition.id definition)) in
   if present then
     Eff.throw {| message :=
       "Component with ID " +:+ dquote +:+ ComponentDefinition.id definition
         +:+ dquote +:+ " is already registered" |}
   else if negb (objectToBoolean (ComponentDefinition.component definition)) then
     Eff.throw {| message :=
       "Component definition for " +:+ dquote +:+ ComponentDefinition.id definition
         +:+ dquote +:+ " is missing the component property" |}
   else if negb (objectToBoolean (ComponentDefinition.propSchema definition)) then
     Eff.throw {| message :=
       "Component definition for " +:+ dquote +:+ ComponentDefinition.id definition
         +:+ dquote +:+ " is missing propSchema" |}
   else
     Eff.update (fun componentRegistry =>
       JSMap.set componentRegistry (ComponentDefinition.id definition) definition))%eff.

Definition unregisterComponent (id : string) : M bool :=
  (let* present := Eff.reads (fun componentRegistry => JSMap.has componentRegistry id) in
   run Eff.update (fun componentRegistry => JSMap.delete componentRegistry id) then
   Eff.ret present)%eff.

Definition getComponent (id : string) : M (option ComponentDefinition.received) :=
  Eff.reads (fun componentRegistry => JSMap.get componentRegistry id).

Definition getAllComponents : M (list ComponentDefinition.received) :=
  Eff.reads (fun componentRegistry => JSMap.values componentRegistry).

Definition hasComponent (id : string) : M bool :=
  Eff.reads (fun componentRegistry => JSMap.has componentRegistry id).

Definition clearRegistry : M unit :=
  Eff.update (fun componentRegistry => JSMap.clear componentRegistry).

(** [def.category === category], on an optional category. *)
Definition hasCategory (category : string) (def : ComponentDefinition.received) : bool :=
  match ComponentDefinition.category def with
  | Some c => String.eqb c category
  | None => false
  end.

(** [def.tags?.includes(tag)], on optional tags. *)
Definition hasTag (tag : string) (def : ComponentDefinition.received) : bool :=
  match ComponentDefinition.tags def with
  | Some tags => existsb (fun t => String.eqb t tag) tags
  | None => false
  end.

Definition getComponentsByCategory (category : string)
    : M (list ComponentDefinition.received) :=
  (let* all := getAllComponents in
   Eff.ret (List.filter (hasCategory category) all))%eff.

Definition getComponentsByTag (tag : string) : M (list ComponentDefinition.received) :=
  (let* all := getAllComponents in
   Eff.ret (List.filter (hasTag tag) all))%eff.

End WithNumber.
End ComponentRegistry.

(** ** [registry/definitions]: the shipped definitions *)

Module Definitions.
Section WithNumber.
Context `{JSNumber}.

(** [(value: string) => `"${value}"`] *)
Definition quoted (value : value) : string :=
  dquote +:+ toString value +:+ dquote.

(** [(value: string) => value ? `"${value}"` : 'undefined'] *)
Definition quotedOrUndefined (value : value) : string :=
  if toBoolean value then dquote +:+ toString value +:+ dquote else "undefined".

Definition variantOptions : list (string * value) :=
  [("Default", VString "default"); ("Success", VString "success");
   ("Warning", VString "warning"); ("Danger", VString "danger")].

Definition num (z : Z) : value := VNumber (Number_ofZ z).
Definition bezierDefault : string := "cubic-bezier(0.4, 0.0, 0.2, 1)".

(** [propSchema] of [liquid-toggle.ts]; [liquid-checkbox.ts] has the
    same one but for the default duration. *)
Definition toggleSchema (duration : Z) : gmap string PropConfig.t :=
  <["variant" := PropConfig.Build_t "Variant" select_t (VString "default")
      None None None (Some variantOptions)
      (Some "Visual variant for color theming") None None None]>
  (<["duration" := PropConfig.Build_t "Duration" range_t (num duration)
      (Some (Number_ofZ 100)) (Some (Number_ofZ 2000)) (Some (Number_ofZ 50)) None
      (Some "Animation duration in milliseconds") (Some true) None None]>
  (<["timingFunction" := PropConfig.Build_t "Timing Function" bezier_t
      (VString bezierDefault) None None None None
      (Some "Animation easing curve") (Some true) None (Some quoted)]>
  (<["delay" := PropConfig.Build_t "Delay" range_t (num 0)
      (Some (Number_ofZ 0)) (Some (Number_ofZ 1000)) (Some (Number_ofZ 50)) None
      (Some "Animation delay in milliseconds") (Some true) None None]>
  (<["primaryColor" := PropConfig.Build_t "Primary Color" color_t (VString "")
      None None None None
      (Some "Primary color (overrides variant)") None None (Some quotedOrUndefined)]>
  (<["secondaryColor" := PropConfig.Build_t "Secondary Color" color_t (VString "")
      None None None None
      (Some "Secondary color (overrides variant)") None None (Some quotedOrUndefined)]>
  (<["disabled" := PropConfig.Build_t "Disabled" boolean_t (VBoolean false)
      None None None None
      (Some "Disabled state") None None None]> ∅)))))).

Definition toggleDefaults (duration : Z) : list (string * value) :=
  [("variant", VString "default"); ("duration", num duration);
   ("timingFunction", VString bezierDefault); ("delay", num 0);
   ("primaryColor", VString ""); ("secondaryColor", VString "");
   ("disabled", VBoolean false)].

Definition liquidToggleDefinition : ComponentDefinition.t :=
  {| ComponentDefinition.id := "liquid-toggle";
     ComponentDefinition.name := "Liquid Toggle";
     ComponentDefinition.description :=
       "A toggle switch with smooth liquid morphing animations and gooey effects";
     ComponentDefinition.component := {| fn_name := Some "LiquidToggle" |};
     ComponentDefinition.propSchema := toggleSchema 600;
     ComponentDefinition.defaultProps := toggleDefaults 600;
     ComponentDefinition.stateMode := None;
     ComponentDefinition.category := Some "forms";
     ComponentDefinition.tags :=
       Some ["toggle"; "switch"; "liquid"; "animated"; "form"];
     ComponentDefinition.importPath := "@/components/liquid-components/LiquidToggle";
     ComponentDefinition.additionalImports :=
       Some [ {| AdditionalImport.name := "LiquidToggleProps";
                 AdditionalImport.path := "@/components/liquid-components/LiquidToggle";
                 AdditionalImport.isType := Some true |} ];
     ComponentDefinition.componentCode := None;
     ComponentDefinition.previewWrapper := None |}.

Definition liquidCheckboxDefinition : ComponentDefinition.t :=
  {| ComponentDefinition.id := "liquid-checkbox";
     ComponentDefinition.name := "Liquid Checkbox";
     ComponentDefinition.description :=
       "A checkbox with smooth liquid morphing animations and gooey effects";
     ComponentDefinition.component := {| fn_name := Some "LiquidCheckbox" |};
     ComponentDefinition.propSchema := toggleSchema 500;
     ComponentDefinition.defaultProps := toggleDefaults 500;
     ComponentDefinition.stateMode := None;
     ComponentDefinition.category := Some "forms";
     ComponentDefinition.tags := Some ["checkbox"; "liquid"; "animated"; "form"];
     ComponentDefinition.importPath := "@/components/liquid-components/LiquidCheckbox";
     ComponentDefinition.additionalImports :=
       Some [ {| AdditionalImport.name := "LiquidCheckboxProps";
                 AdditionalImport.path := "@/components/liquid-components/LiquidCheckbox";
                 AdditionalImport.isType := Some true |} ];
     ComponentDefinition.componentCode := None;
     ComponentDefinition.previewWrapper := None |}.

(** [propSchema] of [liquid-button.ts]. *)
Definition buttonSchema : gmap string PropConfig.t :=
  <["children" := PropConfig.Build_t "Button Text" string_t (VString "Submit")
      None None None None
      (Some "Text content displayed in the button") None None None]>
  (<["loading" := PropConfig.Build_t "Loading State" boolean_t (VBoolean false)
      None None None None
      (Some "Shows a spinning loader when true") None None None]>
  (<["success" := PropConfig.Build_t "Success State" boolean_t (VBoolean false)
      None None None None
      (Some "Shows a checkmark when true") None None None]>
  (<["variant" := PropConfig.Build_t "Variant" select_t (VString "default")
      None None None (Some variantOptions)
      (Some "Visual variant for color theming") None None None]>
  (<["duration" := PropConfig.Build_t "Duration" range_t (num 400)
      (Some (Number_ofZ 100)) (Some (Number_ofZ 1500)) (Some (Number_ofZ 50)) None
      (Some "Animation duration in milliseconds") (Some true) None None]>
  (<["timingFunction" := PropConfig.Build_t "Timing Function" bezier_t
      (VString bezierDefault) None None None None
      (Some "Animation easing curve") (Some true) None (Some quoted)]>
  (<["delay" := PropConfig.Build_t "Delay" range_t (num 0)
      (Some (Number_ofZ 0)) (Some (Number_ofZ 1000)) (Some (Number_ofZ 50)) None
      (Some "Animation delay in milliseconds") (Some true) None None]>
  (<["primaryColor" := PropConfig.Build_t "Primary Color" color_t (VString "#3b82f6")
      None None None None
      (Some "Primary background color (overrides variant)") None None None]>
  (<["secondaryColor" := PropConfig.Build_t "Secondary Color" color_t
      (VString "#2563eb") None None None None
      (Some "Hover/active state color (overrides variant)") None None None]>
  (<["disabled" := PropConfig.Build_t "Disabled" boolean_t (VBoolean false)
      None None None None
      (Some "Disable button interactions") None None None]> ∅))))))))).

Definition liquidButtonDefinition : ComponentDefinition.t :=
  {| ComponentDefinition.id := "liquid-button";
     ComponentDefinition.name := "Liquid Button";
     ComponentDefinition.description :=
       "A button with smooth liquid morphing animations for loading and success states";
     ComponentDefinition.component := {| fn_name := Some "LiquidButton" |};
     ComponentDefinition.propSchema := buttonSchema;
     ComponentDefinition.defaultProps :=
       [("children", VString "Submit"); ("loading", VBoolean false);
        ("success", VBoolean false); ("variant", VString "default");
        ("duration", num 400); ("timingFunction", VString bezierDefault);
        ("delay", num 0); ("primaryColor", VString "#3b82f6");
        ("secondaryColor", VString "#2563eb"); ("disabled", VBoolean false)];
     ComponentDefinition.stateMode := Some button;
     ComponentDefinition.category := Some "forms";
     ComponentDefinition.tags :=
       Some ["button"; "liquid"; "animated"; "loading"; "form"];
     ComponentDefinition.importPath := "@/components/liquid-components/LiquidButton";
     ComponentDefinition.additionalImports :=
       Some [ {| AdditionalImport.name := "LiquidButtonProps";
                 AdditionalImport.path := "@/components/liquid-components/LiquidButton";
                 AdditionalImport.isType := Some true |} ];
     ComponentDefinition.componentCode := None;
     ComponentDefinition.previewWrapper := None |}.

(** [definitions/index.ts] *)
Definition initializeComponents : ComponentRegistry.M unit :=
  (run ComponentRegistry.registerComponent
         (ComponentDefinition.asReceived liquidToggleDefinition) then
   run ComponentRegistry.registerComponent
         (ComponentDefinition.asReceived liquidCheckboxDefinition) then
   ComponentRegistry.registerComponent
     (ComponentDefinition.asReceived liquidButtonDefinition))%eff.

End WithNumber.
End Definitions.

(** ** [AnimationStudio.tsx]: the state of a preview panel

    The hooks of [useComponentState] are modelled by the updaters they pass
    to [setConfig]: functions from the previous panel configuration to the
    next one. *)

Module PanelConfig.
Section WithNumber.
Context `{JSNumber}.
Record t : Type := {
  props : list (string * value);
  isActive : bool
}.
End WithNumber.
End PanelConfig.

Module AnimationStudio.
Section WithNumber.
Context `{JSNumber}.

(** The initial state of [useComponentState]. *)
Definition initialConfig (definition : option ComponentDefinition.t) : PanelConfig.t :=
  {| PanelConfig.props :=
       match definition with
       | Some definition => ComponentDefinition.defaultProps definition
       | None => []
       end;
     PanelConfig.isActive := false |}.

Definition updateProp (key : string) (value : value) (prev : PanelConfig.t)
    : PanelConfig.t :=
  {| PanelConfig.props := JSObject.set (PanelConfig.props prev) key value;
     PanelConfig.isActive := PanelConfig.isActive prev |}.

Definition toggleActive (prev : PanelConfig.t) : PanelConfig.t :=
  {| PanelConfig.props := PanelConfig.props prev;
     PanelConfig.isActive := negb (PanelConfig.isActive prev) |}.

Definition setActive (active : bool) (prev : PanelConfig.t) : PanelConfig.t :=
  {| PanelConfig.props := PanelConfig.props prev;
     PanelConfig.isActive := active |}.

(** [reset]: back to the defaults of the definition, when there is one. *)
Definition reset (definition : option ComponentDefinition.t) (prev : PanelConfig.t)
    : PanelConfig.t :=
  match definition with
  | Some definition =>
      {| PanelConfig.props := ComponentDefinition.defaultProps definition;
         PanelConfig.isActive := false |}
  | None => prev
  end.

(** [const { loading, success } = panelState.config.props]: the value that
    [props] holds under a name, [undefined] when it holds none; the two
    names read this way are not names of [Object.prototype]. *)
Definition property (props : list (string * value)) (key : string) : value :=
  match JSMap.get props key with
  | Some v => v
  | None => VUndefined
  end.

(** [currentDefinition?.stateMode || 'toggle'] *)
Definition stateModeOf (currentDefinition : option ComponentDefinition.t) : StateMode :=
  match currentDefinition with
  | Some definition =>
      match ComponentDefinition.stateMode definition with
      | Some mode => mode
      | None => toggle
      end
  | None => toggle
  end.

(** [handleToggle], on the state of the panel it is called for. *)
Definition handleToggle (currentDefinition : option ComponentDefinition.t)
    (config : PanelConfig.t) : PanelConfig.t :=
  match stateModeOf currentDefinition with
  | toggle => toggleActive config
  | button =>
      let loading := property (PanelConfig.props config) "loading" in
      let success := property (PanelConfig.props config) "success" in
      if negb (toBoolean loading) && negb (toBoolean success) then
        updateProp "loading" (VBoolean true) config
      else if toBoolean loading then
        updateProp "success" (VBoolean true)
          (updateProp "loading" (VBoolean false) config)
      else
        updateProp "success" (VBoolean false) config
  end.

(** The [animationConfig] that [CodeDrawerContent] builds. *)
Definition animationConfigOf (definition : ComponentDefinition.t)
    (config : PanelConfig.t) : AnimationConfig.t :=
  {| AnimationConfig.componentId := ComponentDefinition.id definition;
     AnimationConfig.props := PanelConfig.props config;
     AnimationConfig.isActive := PanelConfig.isActive config |}.

(** The [generatedCode] of [CodeDrawerContent]. *)
Definition generatedCode (definition : ComponentDefinition.t)
    (config : PanelConfig.t) : GeneratedCode.t :=
  CodeGenerator.generateCode (animationConfigOf definition config) definition.

End WithNumber.
End AnimationStudio.

(** ** [scripts/generate-component.mjs]: the names the scaffold derives

    Strings are sequences of bytes here; on a component name made of ASCII
    characters they are the JavaScript string, and [toLowerCase] only
    changes the letters [A] to [Z]. *)

Module Scaffold.

Definition isLowerLetter (c : ascii) : bool :=
  (97 <=? nat_of_ascii c)%nat && (nat_of_ascii c <=? 122)%nat.

Definition isUpperLetter (c : ascii) : bool :=
  (65 <=? nat_of_ascii c)%nat && (nat_of_ascii c <=? 90)%nat.

Definition isAscii (s : string) : bool :=
  forallb (fun c => (nat_of_ascii c <? 128)%nat) (list_ascii_of_string s).

(** [s.replace(/([a-z])([A-Z])/g, '$1-$2')]: the matches are found from
    left to right and do not overlap. *)
Fixpoint hyphenate (s : string) : string :=
  match s with
  | EmptyString => EmptyString
  | String c rest =>
      match rest with
      | String d rest' =>
          if isLowerLetter c && isUpperLetter d
          then String c (String "-" (String d (hyphenate rest')))
          else String c (hyphenate rest)
      | EmptyString => String c EmptyString
      end
  end.

Definition lowerLetter (c : ascii) : ascii :=
  if isUpperLetter c then ascii_of_nat (nat_of_ascii c + 32) else c.

(** [s.toLowerCase()] *)
Fixpoint toLowerCase (s : string) : string :=
  match s with
  | EmptyString => EmptyString
  | String c rest => String (lowerLetter c) (toLowerCase rest)
  end.

(** [const kebabCase = componentName.replace(...).toLowerCase()] *)
Definition kebabCase (componentName : string) : string :=
  toLowerCase (hyphenate componentName).

(** The constant that the definition template exports,
    [`${kebabCase}Definition`], and the id it registers, [`${kebabCase}`]. *)
Definition definitionConstant (componentName : string) : string :=
  kebabCase componentName +:+ "Definition".

Definition definitionId (componentName : string) : string :=
  kebabCase componentName.

End Scaffold.

(** ** A runtime to evaluate the generator on: integer-valued numbers

    [Some z] is the number with the integer value [z] and [None] is NaN.
    This covers every number of the shipped schemas (durations, delays and
    their bounds, in milliseconds). A string that is not a plain decimal
    integer literal reads as NaN here. *)

Module IntNumber.
Definition strictEq (x y : option Z) : bool :=
  match x, y with
  | Some a, Some b => Z.eqb a b
  | _, _ => false
  end.

Definition toString (x : option Z) : string :=
  match x with
  | Some z => pretty z
  | None => "NaN"
  end.

Definition gtZero (x : option Z) : bool :=
  match x with
  | Some z => Z.ltb 0 z
  | None => false
  end.

Definition toBoolean (x : option Z) : bool :=
  match x with
  | Some z => negb (Z.eqb z 0)
  | None => false
  end.

Definition ofString (s : string) : option Z :=
  if String.eqb s "" then Some 0%Z
  else option_map Z.of_int (NilZero.int_of_string s).
End IntNumber.

#[global] Instance intNumber : JSNumber := {|
  number := option Z;
  Number_strictEq := IntNumber.strictEq;
  Number_toString := IntNumber.toString;
  Number_gtZero := IntNumber.gtZero;
  Number_toBoolean := IntNumber.toBoolean;
  String_toNumber := IntNumber.ofString;
  Number_ofZ := Some;
  Number_gtZero_0 := eq_refl
|}.

(** ** Inputs used to evaluate the generator *)

Module Examples.
Import Definitions.

(** [(value) => `{${value}}`] *)
Definition braced `{JSNumber} (value : value) : string :=
  "{" +:+ toString value +:+ "}".

(** A widget with a boolean prop that is on by default and is printed by
    a transform, and an optional colour with a default. *)
Definition panelDefinition : ComponentDefinition.t :=
  {| ComponentDefinition.id := "panel";
     ComponentDefinition.name := "Panel";
     ComponentDefinition.description := "A collapsible panel";
     ComponentDefinition.component := {| fn_name := Some "Panel" |};
     ComponentDefinition.propSchema :=
       <["visible" := PropConfig.Build_t "Visible" boolean_t (VBoolean true)
           None None None None None None None (Some braced)]>
       (<["accent" := PropConfig.Build_t "Accent" color_t (VString "#3b82f6")
           None None None None None None None (Some quotedOrUndefined)]> ∅);
     ComponentDefinition.defaultProps :=
       [("visible", VBoolean true); ("accent", VString "#3b82f6")];
     ComponentDefinition.stateMode := None;
     ComponentDefinition.category := None;
     ComponentDefinition.tags := None;
     ComponentDefinition.importPath := "@/components/Panel";
     ComponentDefinition.additionalImports := None;
     ComponentDefinition.componentCode := None;
     ComponentDefinition.previewWrapper := None |}.

(** The toggle with an empty [componentCode] template and two more
    additional imports, one of them a value. *)
Definition toggleWithHelpers : ComponentDefinition.t :=
  {| ComponentDefinition.id := "liquid-toggle";
     ComponentDefinition.name := "Liquid Toggle";
     ComponentDefinition.description := "A toggle switch";
     ComponentDefinition.component := {| fn_name := Some "LiquidToggle" |};
     ComponentDefinition.propSchema := toggleSchema 600;
     ComponentDefinition.defaultProps := toggleDefaults 600;
     ComponentDefinition.stateMode := Some toggle;
     ComponentDefinition.category := Some "forms";
     ComponentDefinition.tags := None;
     ComponentDefinition.importPath := "@/components/liquid-components/LiquidToggle";
     ComponentDefinition.additionalImports :=
       Some [ {| AdditionalImport.name := "LiquidToggleProps";
                 AdditionalImport.path := "@/components/liquid-components/LiquidToggle";
                 AdditionalImport.isType := Some true |};
              {| AdditionalImport.name := "GooeyFilter";
                 AdditionalImport.path := "@/components/liquid-components/LiquidToggle";
                 AdditionalImport.isType := None |};
              {| AdditionalImport.name := "LiquidToggleVariant";
                 AdditionalImport.path := "@/components/liquid-components/LiquidToggle";
                 AdditionalImport.isType := Some true |} ];
     ComponentDefinition.componentCode := Some "";
     ComponentDefinition.previewWrapper := None |}.

(** The toggle with a custom [componentCode] template. *)
Definition toggleWithTemplate : ComponentDefinition.t :=
  {| ComponentDefinition.id := "liquid-toggle";
     ComponentDefinition.name := "Liquid Toggle";
     ComponentDefinition.description := "A toggle switch";
     ComponentDefinition.component := {| fn_name := Some "LiquidToggle" |};
     ComponentDefinition.propSchema := toggleSchema 600;
     ComponentDefinition.defaultProps := toggleDefaults 600;
     ComponentDefinition.stateMode := Some toggle;
     ComponentDefinition.category := Some "forms";
     ComponentDefinition.tags := None;
     ComponentDefinition.importPath := "@/components/liquid-components/LiquidToggle";
     ComponentDefinition.additionalImports := None;
     ComponentDefinition.componentCode := Some "// Your custom component template here";
     ComponentDefinition.previewWrapper := None |}.

Definition configOf (id : string) (props : list (string * value)) : AnimationConfig.t :=
  {| AnimationConfig.componentId := id;
     AnimationConfig.props := props;
     AnimationConfig.isActive := false |}.

(** An edit session on the toggle: a changed variant, duration and
    secondary colour, the widget disabled, one key the schema lacks. *)
Definition editedToggle : AnimationConfig.t :=
  configOf "liquid-toggle"
    [("variant", VString "success"); ("duration", num 800);
     ("timingFunction", VString bezierDefault); ("delay", num 0);
     ("primaryColor", VString ""); ("secondaryColor", VString "#ffffff");
     ("disabled", VBoolean true); ("elevation", num 3)].

(** The toggle as selected, every prop at its default. *)
Definition freshToggle : AnimationConfig.t :=
  configOf "liquid-toggle" (toggleDefaults 600).

(** [editedToggle] without its entry for [variant], for [delay], for
    [elevation]. *)
Definition editedToggleWithoutVariant : AnimationConfig.t :=
  configOf "liquid-toggle" (tail (AnimationConfig.props editedToggle)).

Definition editedToggleWithoutDelay : AnimationConfig.t :=
  configOf "liquid-toggle"
    (take 3 (AnimationConfig.props editedToggle)
       ++ drop 4 (AnimationConfig.props editedToggle))%list.

Definition editedToggleWithoutElevation : AnimationConfig.t :=
  configOf "liquid-toggle" (take 7 (AnimationConfig.props editedToggle)).

(** The entries of the shipped schemas and of [panelDefinition] that the
    evaluations below look up. *)
Definition disabledConfig : PropConfig.t :=
  PropConfig.Build_t "Disabled" boolean_t (VBoolean false)
    None None None None (Some "Disabled state") None None None.

Definition delayConfig : PropConfig.t :=
  PropConfig.Build_t "Delay" range_t (num 0)
    (Some (Number_ofZ 0)) (Some (Number_ofZ 1000)) (Some (Number_ofZ 50)) None
    (Some "Animation delay in milliseconds") (Some true) None None.

Definition variantConfig : PropConfig.t :=
  PropConfig.Build_t "Variant" select_t (VString "default")
    None None None (Some variantOptions)
    (Some "Visual variant for color theming") None None None.

Definition accentConfig : PropConfig.t :=
  PropConfig.Build_t "Accent" color_t (VString "#3b82f6")
    None None None None None None None (Some quotedOrUndefined).

Definition visibleConfig : PropConfig.t :=
  PropConfig.Build_t "Visible" boolean_t (VBoolean true)
    None None None None None None None (Some braced).

(** Props that hold a key named like a member of [Object.prototype]. *)
Definition propsWithConstructor : AnimationConfig.t :=
  configOf "liquid-toggle" [("duration", num 800); ("constructor", VString "x")].

(** The registry once [initializeComponents] has run on an empty one. *)
Definition initialized : ComponentRegistry.registry :=
  snd (initializeComponents []).

(** The objects that [registerComponent] receives for the toggle, for the
    toggle with a template, for the button and for the panel. *)
Definition receivedToggle : ComponentDefinition.received :=
  ComponentDefinition.asReceived liquidToggleDefinition.

Definition receivedTemplate : ComponentDefinition.received :=
  ComponentDefinition.asReceived toggleWithTemplate.

Definition receivedButton : ComponentDefinition.received :=
  ComponentDefinition.asReceived liquidButtonDefinition.

Definition receivedPanel : ComponentDefinition.received :=
  ComponentDefinition.asReceived panelDefinition.

(** Two objects that a JavaScript caller may pass: one without its
    [component], one without its [propSchema]. *)
Definition withoutComponent : ComponentDefinition.received :=
  {| ComponentDefinition.id := "ghost";
     ComponentDefinition.name := "Ghost";
     ComponentDefinition.description := "A definition without a component";
     ComponentDefinition.component := None;
     ComponentDefinition.propSchema := Some ∅;
     ComponentDefinition.defaultProps := [];
     ComponentDefinition.stateMode := None;
     ComponentDefinition.category := None;
     ComponentDefinition.tags := None;
     ComponentDefinition.importPath := "@/components/Ghost";
     ComponentDefinition.additionalImports := None;
     ComponentDefinition.componentCode := None;
     ComponentDefinition.previewWrapper := None |}.

Definition withoutPropSchema : ComponentDefinition.received :=
  {| ComponentDefinition.id := "ghost";
     ComponentDefinition.name := "Ghost";
     ComponentDefinition.description := "A definition without a prop schema";
     ComponentDefinition.component := Some {| fn_name := Some "Ghost" |};
     ComponentDefinition.propSchema := None;
     ComponentDefinition.defaultProps := [];
     ComponentDefinition.stateMode := None;
     ComponentDefinition.category := None;
     ComponentDefinition.tags := None;
     ComponentDefinition.importPath := "@/components/Ghost";
     ComponentDefinition.additionalImports := None;
     ComponentDefinition.componentCode := None;
     ComponentDefinition.previewWrapper := None |}.

(** A registry that holds the checkbox alone. *)
Definition checkboxOnly : ComponentRegistry.registry :=
  snd (ComponentRegistry.registerComponent
         (ComponentDefinition.asReceived liquidCheckboxDefinition) []).

(** A [PropConfig] without its presentation: no label text, no bounds, no
    description, no transform. *)
Definition bare (propConfig : PropConfig.t) : PropConfig.t :=
  PropConfig.Build_t "" string_t (PropConfig.defaultValue propConfig)
    None None None None None (PropConfig.isAnimationProp propConfig) None None.

(** The toggle under another name, with a schema stripped by [bare]. *)
Definition bareToggle : ComponentDefinition.t :=
  {| ComponentDefinition.id := "bare-toggle";
     ComponentDefinition.name := "Bare Toggle";
     ComponentDefinition.description := "";
     ComponentDefinition.component := {| fn_name := Some "BareToggle" |};
     ComponentDefinition.propSchema := bare <$> toggleSchema 600;
     ComponentDefinition.defaultProps := toggleDefaults 600;
     ComponentDefinition.stateMode := None;
     ComponentDefinition.category := None;
     ComponentDefinition.tags := None;
     ComponentDefinition.importPath := "@/components/BareToggle";
     ComponentDefinition.additionalImports := None;
     ComponentDefinition.componentCode := None;
     ComponentDefinition.previewWrapper := None |}.

(** The toggle wrapped in [forwardRef]: the component is an object
    without [name]. *)
Definition forwardRefToggle : ComponentDefinition.t :=
  {| ComponentDefinition.id := "liquid-toggle";
     ComponentDefinition.name := "Liquid Toggle";
     ComponentDefinition.description := "";
     ComponentDefinition.component := {| fn_name := None |};
     ComponentDefinition.propSchema := toggleSchema 600;
     ComponentDefinition.defaultProps := toggleDefaults 600;
     ComponentDefinition.stateMode := None;
     ComponentDefinition.category := None;
     ComponentDefinition.tags := None;
     ComponentDefinition.importPath := "@/components/liquid-components/LiquidToggle";
     ComponentDefinition.additionalImports := None;
     ComponentDefinition.componentCode := None;
     ComponentDefinition.previewWrapper := None |}.

(** The panel of the edit session, and the panel of the button as
    selected. *)
Definition editedPanel : PanelConfig.t :=
  {| PanelConfig.props := AnimationConfig.props editedToggle;
     PanelConfig.isActive := false |}.

Definition buttonPanel : PanelConfig.t :=
  AnimationStudio.initialConfig (Some liquidButtonDefinition).

(** The configs of the shipped schemas that the evaluations look up. *)
Definition durationConfig : PropConfig.t :=
  PropConfig.Build_t "Duration" range_t (num 600)
    (Some (Number_ofZ 100)) (Some (Number_ofZ 2000)) (Some (Number_ofZ 50)) None
    (Some "Animation duration in milliseconds") (Some true) None None.

Definition timingFunctionConfig : PropConfig.t :=
  PropConfig.Build_t "Timing Function" bezier_t (VString bezierDefault)
    None None None None (Some "Animation easing curve") (Some true) None (Some quoted).

Definition buttonPrimaryColorConfig : PropConfig.t :=
  PropConfig.Build_t "Primary Color" color_t (VString "#3b82f6")
    None None None None
    (Some "Primary background color (overrides variant)") None None None.
End Examples.

(** ** Vocabulary of the statements *)

Module Vocabulary.
Import CodeGenerator.
Section WithNumber.
Context `{JSNumber}.

(** The entries of [definition.additionalImports], none when the field
    is absent. *)
Definition declaredImports (definition : ComponentDefinition.t)
    : list AdditionalImport.t :=
  match ComponentDefinition.additionalImports definition with
  | Some additionalImports => additionalImports
  | None => []
  end.

Definition isTypeImport (imp : AdditionalImport.t) : bool :=
  flag (AdditionalImport.isType imp).

(** The names of the type imports, in the order of [additionalImports]. *)
Definition typeImportNames (definition : ComponentDefinition.t) : list string :=
  map AdditionalImport.name (List.filter isTypeImport (declaredImports definition)).

(** The names of the value imports, in the order of [additionalImports]. *)
Definition valueImportNames (definition : ComponentDefinition.t) : list string :=
  map AdditionalImport.name
    (List.filter (fun imp => negb (isTypeImport imp)) (declaredImports definition)).

(** The three names [generateCSSCode] translates. *)
Definition cssNames : list string := ["duration"; "timingFunction"; "delay"].

(** The lines closing the usage snippet. *)
Definition usageFooter : list string := ["    />"; "  )"; "}"].

(** The error thrown for an id that is already registered. *)
Definition alreadyRegistered (id : string) : Error :=
  {| message := "Component with ID " +:+ dquote +:+ id +:+ dquote
                  +:+ " is already registered" |}.

(** The keys of a map or of an object, in iteration order. *)
Definition keys {V : Type} (m : list (string * V)) : list string := map fst m.

(** The registries that the operations of the module can build from the
    empty one. *)
Inductive reachable : ComponentRegistry.registry -> Prop :=
| reachable_empty : reachable []
| reachable_register (definition : ComponentDefinition.received) reg :
    reachable reg ->
    reachable (snd (ComponentRegistry.registerComponent definition reg))
| reachable_unregister (id : string) reg :
    reachable reg ->
    reachable (snd (ComponentRegistry.unregisterComponent id reg))
| reachable_clear reg :
    reachable reg ->
    reachable (snd (ComponentRegistry.clearRegistry reg)).

(** Every key of the registry is the id of the definition stored under it. *)
Definition keyedById (reg : ComponentRegistry.registry) : Prop :=
  Forall (fun entry => fst entry = ComponentDefinition.id (snd entry)) reg.

(** Every entry of [props] whose key [definition.propSchema[key]] finds
    holds the default of what is found: the [defaultValue] of its
    [PropConfig], or [undefined] for a name that is only inherited. *)
Definition atDefaults (definition : ComponentDefinition.t)
    (props : list (string * value)) : Prop :=
  forall key value member,
    In (key, value) props ->
    schemaLookup definition key = Some member ->
    strictEq value (memberDefaultValue member) = true.

(** The attribute lines that the loop of [generateUsageCode] pushes for
    some entries, in their order. *)
Definition attributeLines (definition : ComponentDefinition.t)
    (entries : list (string * value)) : list string :=
  fold_left (addConfiguredProp definition) entries [].

(** The errors thrown for a definition without [component] and for one
    without [propSchema]. *)
Definition missingComponent (id : string) : Error :=
  {| message := "Component definition for " +:+ dquote +:+ id +:+ dquote
                  +:+ " is missing the component property" |}.

Definition missingPropSchema (id : string) : Error :=
  {| message := "Component definition for " +:+ dquote +:+ id +:+ dquote
                  +:+ " is missing propSchema" |}.

(** The name written one character after the other, each in lower case,
    with a hyphen before every upper-case letter that comes right after a
    lower-case one; [previous] is the character before the string. *)
Fixpoint withHyphens (previous : option ascii) (s : string) : string :=
  match s with
  | EmptyString => EmptyString
  | String c rest =>
      let afterLower :=
        match previous with
        | Some p => Scaffold.isLowerLetter p
        | None => false
        end in
      if afterLower && Scaffold.isUpperLetter c
      then String "-" (String (Scaffold.lowerLetter c) (withHyphens (Some c) rest))
      else String (Scaffold.lowerLetter c) (withHyphens (Some c) rest)
  end.

(** The places of a name where a lower-case letter is followed by an
    upper-case one. *)
Fixpoint boundaries (s : string) : nat :=
  match s with
  | EmptyString => 0
  | String c rest =>
      match rest with
      | String d _ =>
          (if Scaffold.isLowerLetter c && Scaffold.isUpperLetter d then 1 else 0)
          + boundaries rest
      | EmptyString => 0
      end
  end.

(** How many times a character occurs in a string. *)
Fixpoint occurrences (c : ascii) (s : string) : nat :=
  match s with
  | EmptyString => 0
  | String d rest => (if Ascii.eqb c d then 1 else 0) + occurrences c rest
  end.

(** No character of the string is an upper-case letter. *)
Fixpoint noUpperLetter (s : string) : bool :=
  match s with
  | EmptyString => true
  | String c rest => negb (Scaffold.isUpperLetter c) && noUpperLetter rest
  end.

(** Two definitions whose schemas know the same props, with the same
    defaults and the same animation flags. *)
Definition sameTiming (definition definition' : ComponentDefinition.t) : Prop :=
  forall key,
    match ComponentDefinition.propSchema definition !! key,
          ComponentDefinition.propSchema definition' !! key with
    | Some propConfig, Some propConfig' =>
        PropConfig.defaultValue propConfig = PropConfig.defaultValue propConfig'
        /\ flag (PropConfig.isAnimationProp propConfig)
           = flag (PropConfig.isAnimationProp propConfig')
    | None, None => True
    | _, _ => False
    end.
End WithNumber.
End Vocabulary.

Import CodeGenerator Vocabulary.

(** ** Import generation *)

Section Imports.
Context `{JSNumber}.

Lemma fold_sortImport (additionalImports : list AdditionalImport.t)
    (typeImports valueImports : list string) :
  fold_left sortImport additionalImports (typeImports, valueImports)
  = ((typeImports
        ++ map AdditionalImport.name (List.filter isTypeImport additionalImports))%list,
     (valueImports
        ++ map AdditionalImport.name
             (List.filter (fun imp => negb (isTypeImport imp)) additionalImports))%list).
Proof.
  revert typeImports valueImports.
  induction additionalImports as [|imp rest IH]; intros typeImports valueImports.
  - cbn. by rewrite !app_nil_r.
  - cbn [fold_left List.filter]. unfold sortImport at 2.
    change (flag (AdditionalImport.isType imp)) with (isTypeImport imp).
    destruct (isTypeImport imp); cbn [negb map];
      rewrite IH; unfold push; by rewrite <- app_assoc.
Qed.

Lemma positive_length {A} (l : list A) :
  (0 <? length l)%nat = match l with [] => false | _ => true end.
Proof. by destruct l. Qed.

Lemma joinText_Some (names : list string) : map joinText (map Some names) = names.
Proof. induction names as [|n rest IH]; cbn; [done | by rewrite IH]. Qed.

(** The array returned by [generateImports], in closed form. *)
Lemma generateImports_eq (definition : ComponentDefinition.t) :
  generateImports definition
  = importLine
      (joinText (fn_name (ComponentDefinition.component definition))
         :: valueImportNames definition)
      (ComponentDefinition.importPath definition)
    :: match typeImportNames definition with
       | [] => []
       | _ :: _ =>
           [importTypeLine (typeImportNames definition)
              (ComponentDefinition.importPath definition)]
       end.
Proof.
  unfold generateImports, typeImportNames, valueImportNames, declaredImports.
  destruct (ComponentDefinition.additionalImports definition) as [l|]; [|done].
  rewrite fold_sortImport. cbn [app]. rewrite !positive_length.
  unfold unshift, push.
  destruct (map AdditionalImport.name (List.filter isTypeImport l));
    destruct (map AdditionalImport.name
                (List.filter (fun imp => negb (isTypeImport imp)) l)) as [|v vs];
    cbn [app map joinText]; rewrite ?joinText_Some; done.
Qed.

Lemma typeImportNames_nil (definition : ComponentDefinition.t) :
  typeImportNames definition = []
  <-> existsb isTypeImport (declaredImports definition) = false.
Proof.
  unfold typeImportNames.
  induction (declaredImports definition) as [|imp rest IH]; [done|].
  cbn. destruct (isTypeImport imp); cbn; [split; discriminate | exact IH].
Qed.

(** C4, as the code has it: the name list of the primary import line
    starts with the name of the component function,
    [definition.component.name] as [join] prints it (nothing for a
    component without a name), followed by the names of the value imports
    in the order of [additionalImports]. *)
Theorem primary_import_names (definition : ComponentDefinition.t) :
  head (generateImports definition)
  = Some ("import { "
            +:+ join ", "
                  (joinText (fn_name (ComponentDefinition.component definition))
                     :: valueImportNames definition)
            +:+ " } from '" +:+ ComponentDefinition.importPath definition +:+ "'").
Proof. by rewrite generateImports_eq. Qed.

(** C5: the primary import line is at index 0 of [imports], and when some
    entry of [additionalImports] has [isType] true the type-only import
    line is at index 1, after it. *)
Theorem primary_import_first (config : AnimationConfig.t)
    (definition : ComponentDefinition.t) :
  let imports := GeneratedCode.imports (generateCode config definition) in
  imports !! 0%nat
    = Some (importLine
              (joinText (fn_name (ComponentDefinition.component definition))
                 :: valueImportNames definition)
              (ComponentDefinition.importPath definition))
  /\ (existsb isTypeImport (declaredImports definition) = true ->
      imports !! 1%nat
        = Some (importTypeLine (typeImportNames definition)
                  (ComponentDefinition.importPath definition))
      /\ length imports = 2%nat).
Proof.
  cbn. rewrite generateImports_eq. split; [done|].
  intros Hty.
  destruct (typeImportNames definition) as [|n ns] eqn:E; [|done].
  apply typeImportNames_nil in E. congruence.
Qed.

(** C10: [imports] is the primary line alone, or the primary line and one
    type-only line; its length is 1 or 2; value imports add no line, only
    names to the primary line. *)
Theorem imports_one_or_two_lines (definition : ComponentDefinition.t) :
  let primary :=
    importLine
      (joinText (fn_name (ComponentDefinition.component definition))
         :: valueImportNames definition)
      (ComponentDefinition.importPath definition) in
  let typeOnly :=
    importTypeLine (typeImportNames definition)
      (ComponentDefinition.importPath definition) in
  (generateImports definition = [primary]
   \/ generateImports definition = [primary; typeOnly])
  /\ (length (generateImports definition) = 1%nat
      \/ length (generateImports definition) = 2%nat)
  /\ length (generateImports definition)
     = (1 + if existsb isTypeImport (declaredImports definition) then 1 else 0)%nat.
Proof.
  cbn zeta. rewrite generateImports_eq.
  destruct (existsb isTypeImport (declaredImports definition)) eqn:Hty.
  - destruct (typeImportNames definition) as [|n ns] eqn:E.
    + apply typeImportNames_nil in E. congruence.
    + cbn. auto.
  - apply typeImportNames_nil in Hty. rewrite Hty. cbn. auto.
Qed.
End Imports.

(** ** Usage-code generation *)

Section Usage.
Context `{JSNumber}.

(** What one step of the loop does to [lines] does not depend on
    [lines]: it appends the lines it would push on an empty array. *)
Lemma addConfiguredProp_app (definition : ComponentDefinition.t)
    (lines : list string) (entry : string * value) :
  addConfiguredProp definition lines entry
  = (lines ++ addConfiguredProp definition [] entry)%list.
Proof.
  destruct entry as [key value]. unfold addConfiguredProp, push.
  repeat case_match; by rewrite ?app_nil_r.
Qed.

Lemma fold_addConfiguredProp (definition : ComponentDefinition.t)
    (props : list (string * value)) (lines : list string) :
  fold_left (addConfiguredProp definition) props lines
  = (lines ++ flat_map (addConfiguredProp definition []) props)%list.
Proof.
  revert lines. induction props as [|entry rest IH]; intros lines; cbn.
  - by rewrite app_nil_r.
  - rewrite IH, (addConfiguredProp_app definition lines entry).
    by rewrite <- app_assoc.
Qed.

(** The lines of the snippet: the header, the attribute lines of the
    entries of [props] in order, the footer. *)
Lemma usageLines_eq (config : AnimationConfig.t) (definition : ComponentDefinition.t) :
  usageLines config definition
  = (usageHeader definition
       ++ flat_map (addConfiguredProp definition []) (AnimationConfig.props config)
       ++ usageFooter)%list.
Proof.
  unfold usageLines, usageFooter, push. rewrite fold_addConfiguredProp.
  by rewrite <- !app_assoc.
Qed.

(** An entry that pushes nothing can be dropped from [props]. *)
Lemma silent_entry_dropped (config config' : AnimationConfig.t)
    (definition : ComponentDefinition.t) (entry : string * value)
    (before after : list (string * value)) :
  addConfiguredProp definition [] entry = [] ->
  AnimationConfig.props config = (before ++ entry :: after)%list ->
  AnimationConfig.props config' = (before ++ after)%list ->
  generateUsageCode config definition = generateUsageCode config' definition.
Proof.
  intros Hsilent Hprops Hprops'. unfold generateUsageCode.
  rewrite !usageLines_eq, Hprops, Hprops', !flat_map_app.
  cbn [flat_map]. by rewrite Hsilent.
Qed.

Lemma schemaLookup_own (definition : ComponentDefinition.t) (key : string)
    (propConfig : PropConfig.t) :
  ComponentDefinition.propSchema definition !! key = Some propConfig ->
  schemaLookup definition key = Some (OwnConfig propConfig).
Proof. intros Hschema. unfold schemaLookup. by rewrite Hschema. Qed.

Lemma schemaLookup_inherited (definition : ComponentDefinition.t) (key : string) :
  ComponentDefinition.propSchema definition !! key = None ->
  schemaLookup definition key
  = if inherited key then Some InheritedMember else None.
Proof. intros Hschema. unfold schemaLookup. by rewrite Hschema. Qed.

(** C2, where the code departs from it: a prop named like a property
    that every object inherits from [Object.prototype] ([constructor],
    [toString], ...) is not skipped when the schema holds no [PropConfig]
    for it: [definition.propSchema[key]] finds the inherited member, which
    is truthy and has no [defaultValue] and no [transform], so a string
    value is printed in quotes and a number in braces. *)
Theorem inherited_name_printed (definition : ComponentDefinition.t)
    (key : string) (lines : list string) :
  ComponentDefinition.propSchema definition !! key = None ->
  inherited key = true ->
  (forall s,
     addConfiguredProp definition lines (key, VString s)
     = (lines ++ ["      " +:+ key +:+ "=" +:+ dquote +:+ s +:+ dquote])%list)
  /\ (forall n,
        addConfiguredProp definition lines (key, VNumber n)
        = (lines ++ ["      " +:+ key +:+ "={" +:+ Number_toString n +:+ "}"])%list).
Proof.
  intros Hschema Hinherited. unfold addConfiguredProp.
  rewrite (schemaLookup_inherited _ _ Hschema), Hinherited.
  split; intros x; cbn [memberDefaultValue memberTransform strictEq typeof toString];
    by rewrite ?andb_false_r.
Qed.

(** X22: an entry of [props] whose name the schema does not hold and no
    object inherits, or whose value is strictly equal to the
    [defaultValue] of its [PropConfig], pushes no attribute line: the array
    [lines] is left as it is, and the usage code is the one generated
    without that entry. *)
Theorem unknown_or_default_prop_omitted (config config' : AnimationConfig.t)
    (definition : ComponentDefinition.t) (key : string) (value : JS.value)
    (before after : list (string * JS.value)) :
  AnimationConfig.props config = (before ++ (key, value) :: after)%list ->
  AnimationConfig.props config' = (before ++ after)%list ->
  (ComponentDefinition.propSchema definition !! key = None
   /\ inherited key = false)
  \/ (exists propConfig,
        ComponentDefinition.propSchema definition !! key = Some propConfig
        /\ strictEq value (PropConfig.defaultValue propConfig) = true) ->
  (forall lines, addConfiguredProp definition lines (key, value) = lines)
  /\ generateUsageCode config definition = generateUsageCode config' definition.
Proof.
  intros Hprops Hprops' Hcase.
  assert (Hsilent : forall lines, addConfiguredProp definition lines (key, value) = lines).
  { intros lines. unfold addConfiguredProp.
    destruct Hcase as [[Hschema Hown] | (propConfig & Hschema & Hdefault)].
    - by rewrite (schemaLookup_inherited _ _ Hschema), Hown.
    - rewrite (schemaLookup_own _ _ _ Hschema). cbn [memberDefaultValue].
      by rewrite Hdefault. }
  split; [exact Hsilent|].
  eapply silent_entry_dropped; [apply Hsilent | exact Hprops | exact Hprops'].
Qed.

(** C3: when the [PropConfig] of a prop has a [transform] and the
    transform maps the current value to the string "undefined", the prop
    pushes no attribute line, whatever its [defaultValue]; so does the
    value [''] under the transform [v => v ? `"${v}"` : 'undefined']. *)
Theorem transform_undefined_omitted (definition : ComponentDefinition.t)
    (key : string) (value : JS.value) (propConfig : PropConfig.t)
    (transform : JS.value -> string) (lines : list string) :
  ComponentDefinition.propSchema definition !! key = Some propConfig ->
  PropConfig.transform propConfig = Some transform ->
  (transform value = "undefined" ->
   addConfiguredProp definition lines (key, value) = lines)
  /\ (transform = Definitions.quotedOrUndefined ->
      addConfiguredProp definition lines (key, VString "") = lines).
Proof.
  intros Hschema Htransform.
  assert (Hgen : forall v, transform v = "undefined" ->
                   addConfiguredProp definition lines (key, v) = lines).
  { intros v Hv. unfold addConfiguredProp.
    rewrite (schemaLookup_own _ _ _ Hschema).
    cbn [memberDefaultValue memberTransform]. rewrite Htransform, Hv.
    cbn. by repeat case_match. }
  split; [apply Hgen|].
  intros ->. by apply Hgen.
Qed.

(** C1, as the code has it by design: for a prop whose [PropConfig], if
    the schema holds one, has no [transform], the value [false] pushes no
    attribute line, whatever the [defaultValue]; for a prop whose
    [PropConfig] has a [transform], a boolean, [true] or [false], is left
    out when it is strictly equal to the [defaultValue] or when the
    transform returns "undefined" for it, and is otherwise printed as six
    spaces, the key, [=] and the text that the transform returns. The text
    printed for [true] without a transform is not part of this statement. *)
Theorem boolean_prop_emission (definition : ComponentDefinition.t)
    (key : string) (lines : list string) :
  ((forall propConfig,
      ComponentDefinition.propSchema definition !! key = Some propConfig ->
      PropConfig.transform propConfig = None) ->
   addConfiguredProp definition lines (key, VBoolean false) = lines)
  /\ (forall propConfig transform b,
        ComponentDefinition.propSchema definition !! key = Some propConfig ->
        PropConfig.transform propConfig = Some transform ->
        addConfiguredProp definition lines (key, VBoolean b)
        = if strictEq (VBoolean b) (PropConfig.defaultValue propConfig)
             || String.eqb (transform (VBoolean b)) "undefined"
          then lines
          else (lines ++ ["      " +:+ key +:+ "=" +:+ transform (VBoolean b)])%list).
Proof.
  split.
  - intros Hplain. unfold addConfiguredProp, schemaLookup.
    destruct (ComponentDefinition.propSchema definition !! key) as [propConfig|].
    + cbn [memberDefaultValue memberTransform]. rewrite (Hplain propConfig eq_refl).
      by destruct (strictEq (VBoolean false) (PropConfig.defaultValue propConfig)).
    + by destruct (inherited key).
  - intros propConfig transform b Hschema Htransform. unfold addConfiguredProp.
    rewrite (schemaLookup_own _ _ _ Hschema).
    cbn [memberDefaultValue memberTransform]. rewrite Htransform.
    destruct (strictEq (VBoolean b) (PropConfig.defaultValue propConfig)); [done|].
    cbn [strictEq andb orb].
    by destruct (String.eqb (transform (VBoolean b)) "undefined").
Qed.
End Usage.

(** ** CSS-code generation *)

Section Css.
Context `{JSNumber}.

Lemma addCssProp_app (definition : ComponentDefinition.t)
    (cssProps : list string) (entry : string * value) :
  addCssProp definition cssProps entry
  = (cssProps ++ addCssProp definition [] entry)%list.
Proof.
  destruct entry as [key value]. unfold addCssProp, push.
  repeat case_match; by rewrite ?app_nil_r.
Qed.

Lemma fold_addCssProp (definition : ComponentDefinition.t)
    (props : list (string * value)) (cssProps : list string) :
  fold_left (addCssProp definition) props cssProps
  = (cssProps ++ flat_map (addCssProp definition []) props)%list.
Proof.
  revert cssProps. induction props as [|entry rest IH]; intros cssProps; cbn.
  - by rewrite app_nil_r.
  - rewrite IH, (addCssProp_app definition cssProps entry).
    by rewrite <- app_assoc.
Qed.

Lemma cssLines_eq (config : AnimationConfig.t) (definition : ComponentDefinition.t) :
  cssLines config definition
  = flat_map (addCssProp definition []) (AnimationConfig.props config).
Proof. unfold cssLines. by rewrite fold_addCssProp. Qed.

(** An entry that pushes no CSS line can be dropped from [props]. *)
Lemma silent_css_entry_dropped (config config' : AnimationConfig.t)
    (definition : ComponentDefinition.t) (entry : string * value)
    (before after : list (string * value)) :
  addCssProp definition [] entry = [] ->
  AnimationConfig.props config = (before ++ entry :: after)%list ->
  AnimationConfig.props config' = (before ++ after)%list ->
  generateCSSCode config definition = generateCSSCode config' definition.
Proof.
  intros Hsilent Hprops Hprops'. unfold generateCSSCode.
  rewrite !cssLines_eq, Hprops, Hprops', !flat_map_app.
  cbn [flat_map]. by rewrite Hsilent.
Qed.

(** One step of the loop either leaves [cssProps] as it is or pushes one
    line, and it pushes only under the three conditions. *)
Lemma addCssProp_cases (definition : ComponentDefinition.t)
    (cssProps : list string) (key : string) (value : value) :
  addCssProp definition cssProps (key, value) = cssProps
  \/ exists propConfig line,
       ComponentDefinition.propSchema definition !! key = Some propConfig
       /\ PropConfig.isAnimationProp propConfig = Some true
       /\ strictEq value (PropConfig.defaultValue propConfig) = false
       /\ In key cssNames
       /\ addCssProp definition cssProps (key, value) = (cssProps ++ [line])%list.
Proof.
  unfold addCssProp, schemaLookup, push, cssNames.
  destruct (ComponentDefinition.propSchema definition !! key) as [propConfig|];
    [|by destruct (inherited key); left].
  cbn [memberIsAnimationProp memberDefaultValue].
  destruct (PropConfig.isAnimationProp propConfig) as [[|]|] eqn:Hanim;
    cbn [flag negb]; [|by left..].
  destruct (strictEq value (PropConfig.defaultValue propConfig)) eqn:Hdefault;
    [by left|].
  destruct (String.eqb key "duration") eqn:Hduration.
  { apply String.eqb_eq in Hduration. right. eexists _, _. cbn. eauto 10. }
  destruct (String.eqb key "timingFunction") eqn:Htiming.
  { apply String.eqb_eq in Htiming. right. eexists _, _. cbn. eauto 10. }
  destruct (String.eqb key "delay") eqn:Hdelay; [|by left].
  apply String.eqb_eq in Hdelay.
  destruct (gtZero value); [|by left].
  right. eexists _, _. cbn. eauto 10.
Qed.

Lemma non_animation_prop_silent (definition : ComponentDefinition.t)
    (cssProps : list string) (key : string) (value : value)
    (propConfig : PropConfig.t) :
  ComponentDefinition.propSchema definition !! key = Some propConfig ->
  PropConfig.isAnimationProp propConfig <> Some true ->
  addCssProp definition cssProps (key, value) = cssProps.
Proof.
  intros Hschema Hanim. unfold addCssProp.
  rewrite (schemaLookup_own _ _ _ Hschema). cbn [memberIsAnimationProp].
  by destruct (PropConfig.isAnimationProp propConfig) as [[|]|].
Qed.

(** C7: a step of the CSS loop pushes a line only for a prop whose
    [PropConfig] has [isAnimationProp] true, whose value is not strictly
    equal to the [defaultValue], and whose name is [duration],
    [timingFunction] or [delay]; a delay of 0 pushes no line whatever the
    default; a prop that is not an animation prop pushes no line, and the
    CSS code is the one generated without it. *)
Theorem css_lines_filtered (config config' : AnimationConfig.t)
    (definition : ComponentDefinition.t) (cssProps : list string)
    (key : string) (value : JS.value) (before after : list (string * JS.value)) :
  (addCssProp definition cssProps (key, value) = cssProps
   \/ exists propConfig line,
        ComponentDefinition.propSchema definition !! key = Some propConfig
        /\ PropConfig.isAnimationProp propConfig = Some true
        /\ strictEq value (PropConfig.defaultValue propConfig) = false
        /\ In key cssNames
        /\ addCssProp definition cssProps (key, value) = (cssProps ++ [line])%list)
  /\ addCssProp definition cssProps ("delay", VNumber (Number_ofZ 0)) = cssProps
  /\ (forall propConfig,
        ComponentDefinition.propSchema definition !! key = Some propConfig ->
        PropConfig.isAnimationProp propConfig <> Some true ->
        addCssProp definition cssProps (key, value) = cssProps
        /\ (AnimationConfig.props config = (before ++ (key, value) :: after)%list ->
            AnimationConfig.props config' = (before ++ after)%list ->
            generateCSSCode config definition = generateCSSCode config' definition)).
Proof.
  split; [apply addCssProp_cases|]. split.
  - unfold addCssProp. cbn [gtZero String.eqb Ascii.eqb Bool.eqb].
    rewrite Number_gtZero_0. by repeat case_match.
  - intros propConfig Hschema Hanim. split.
    + by eapply non_animation_prop_silent.
    + apply silent_css_entry_dropped. by eapply non_animation_prop_silent.
Qed.

Lemma length_zero_nil {A} (l : list A) :
  (length l =? 0)%nat = match l with [] => true | _ => false end.
Proof. by destruct l. Qed.

(** C8: when the loop pushed no CSS line, [cssCode] is [undefined], and
    so it is when no animation prop with a name of the table differs from
    its default; otherwise [cssCode] is the lines joined by newlines
    inside one [.animated-element { ... }] block; it is never the empty
    string. *)
Theorem css_code_absent_or_block (config : AnimationConfig.t)
    (definition : ComponentDefinition.t) :
  let cssCode := GeneratedCode.cssCode (generateCode config definition) in
  (cssLines config definition = [] -> cssCode = None)
  /\ (cssLines config definition <> [] ->
      cssCode = Some (".animated-element {" +:+ newline
                        +:+ join newline (cssLines config definition)
                        +:+ newline +:+ "}"))
  /\ cssCode <> Some ""
  /\ ((forall key value propConfig,
         In (key, value) (AnimationConfig.props config) ->
         ComponentDefinition.propSchema definition !! key = Some propConfig ->
         PropConfig.isAnimationProp propConfig = Some true ->
         strictEq value (PropConfig.defaultValue propConfig) = false ->
         ~ In key cssNames) ->
      cssCode = None).
Proof.
  cbn [GeneratedCode.cssCode generateCode]. unfold generateCSSCode.
  rewrite length_zero_nil.
  split; [by intros ->|]. split; [by destruct (cssLines config definition)|].
  split; [by destruct (cssLines config definition)|].
  intros Hnone.
  assert (Hnil : cssLines config definition = []); [|by rewrite Hnil].
  rewrite cssLines_eq.
  induction (AnimationConfig.props config) as [|[key value] rest IH]; [done|].
  cbn [flat_map]. rewrite IH.
  - rewrite app_nil_r.
    destruct (addCssProp_cases definition [] key value)
      as [Hsilent | (propConfig & line & Hschema & Hanim & Hdefault & Hname & _)];
      [exact Hsilent|].
    exfalso. eapply Hnone; eauto. by left.
  - intros k v pc Hin. apply Hnone. by right.
Qed.
End Css.

(** ** [generateCode]: the component code *)

Section ComponentCode.
Context `{JSNumber}.

(** C6, as the code has it: a [componentCode] that is set and is not the
    empty string is returned as it is; when it is absent or the empty
    string, the component code is the two-line comment that names
    [definition.importPath]. *)
Theorem component_code_override (config : AnimationConfig.t)
    (definition : ComponentDefinition.t) :
  let result := GeneratedCode.componentCode (generateCode config definition) in
  (forall code,
     ComponentDefinition.componentCode definition = Some code ->
     code <> "" -> result = code)
  /\ (ComponentDefinition.componentCode definition = None
      \/ ComponentDefinition.componentCode definition = Some "" ->
      result = "// Component is defined in: "
                 +:+ ComponentDefinition.importPath definition +:+ newline
                 +:+ "// Use the import statement above to use this component").
Proof.
  cbn [GeneratedCode.componentCode generateCode]. unfold orElse. split.
  - intros code -> Hcode. apply String.eqb_neq in Hcode. by rewrite Hcode.
  - by intros [-> | ->].
Qed.
End ComponentCode.

(** ** The registry *)

Section MapLaws.
Context {V : Type}.

Lemma get_set_eq (m : JSMap.t V) (k : string) (v : V) :
  JSMap.get (JSMap.set m k v) k = Some v.
Proof.
  induction m as [|[k' v'] rest IH]; cbn.
  - by rewrite String.eqb_refl.
  - destruct (String.eqb k' k) eqn:E; cbn; rewrite E; [done | exact IH].
Qed.

Lemma get_set_ne (m : JSMap.t V) (k k' : string) (v : V) :
  k <> k' -> JSMap.get (JSMap.set m k v) k' = JSMap.get m k'.
Proof.
  intros Hne. induction m as [|[k0 v0] rest IH]; cbn.
  - apply String.eqb_neq in Hne. by rewrite Hne.
  - destruct (String.eqb k0 k) eqn:E; cbn.
    + apply String.eqb_eq in E. subst k0.
      apply String.eqb_neq in Hne. by rewrite Hne.
    + by rewrite IH.
Qed.

Lemma has_set (m : JSMap.t V) (k : string) (v : V) :
  JSMap.has (JSMap.set m k v) k = true.
Proof. unfold JSMap.has. by rewrite get_set_eq. Qed.
End MapLaws.

Section Registry.
Context `{JSNumber}.
Import ComponentRegistry.

Lemma registerComponent_fresh (componentRegistry : registry)
    (definition : ComponentDefinition.received) :
  JSMap.has componentRegistry (ComponentDefinition.id definition) = false ->
  is_Some (ComponentDefinition.component definition) ->
  is_Some (ComponentDefinition.propSchema definition) ->
  registerComponent definition componentRegistry
  = (Eff.Returned tt,
     JSMap.set componentRegistry (ComponentDefinition.id definition) definition).
Proof.
  intros Hfresh [c Hcomponent] [schema Hschema].
  unfold registerComponent, Eff.bind, Eff.reads.
  by rewrite Hfresh, Hcomponent, Hschema.
Qed.

(** C9: registering a definition whose id is already in the registry
    throws and leaves the registry as it was; in particular, after a first
    registration, of a definition that has its component and its prop
    schema, a second one under the same id throws, and [get] still returns
    the first definition. *)
Theorem duplicate_registration_rejected (componentRegistry : registry)
    (first second : ComponentDefinition.received) :
  (JSMap.has componentRegistry (ComponentDefinition.id second) = true ->
   registerComponent second componentRegistry
   = (Eff.Thrown (alreadyRegistered (ComponentDefinition.id second)),
      componentRegistry))
  /\ (JSMap.has componentRegistry (ComponentDefinition.id first) = false ->
      is_Some (ComponentDefinition.component first) ->
      is_Some (ComponentDefinition.propSchema first) ->
      ComponentDefinition.id second = ComponentDefinition.id first ->
      exists registered,
        registerComponent first componentRegistry = (Eff.Returned tt, registered)
        /\ registerComponent second registered
           = (Eff.Thrown (alreadyRegistered (ComponentDefinition.id first)),
              registered)
        /\ getComponent (ComponentDefinition.id first) registered
           = (Eff.Returned (Some first), registered)).
Proof.
  assert (Hdup : forall (reg : registry) (d : ComponentDefinition.received),
             JSMap.has reg (ComponentDefinition.id d) = true ->
             registerComponent d reg
             = (Eff.Thrown (alreadyRegistered (ComponentDefinition.id d)), reg)).
  { intros reg d Hpresent.
    unfold registerComponent, Eff.bind, Eff.reads. by rewrite Hpresent. }
  split; [apply Hdup|].
  intros Hfresh Hcomponent Hschema Hid. eexists.
  split; [by apply registerComponent_fresh|]. split.
  - rewrite <- Hid. apply Hdup. rewrite Hid. apply has_set.
  - unfold getComponent, Eff.reads. by rewrite get_set_eq.
Qed.
End Registry.

(** ** The generator and the registry on the shipped definitions *)

Section Evaluation.
Import Definitions Examples ComponentRegistry.

(** The usage code of an edit session on the toggle. *)
Example usage_of_edited_toggle :
  usageLines editedToggle liquidToggleDefinition
  = (usageHeader liquidToggleDefinition
       ++ ["      variant=" +:+ dquote +:+ "success" +:+ dquote;
           "      duration={800}";
           "      secondaryColor=" +:+ dquote +:+ "#ffffff" +:+ dquote;
           "      disabled=true"]
       ++ usageFooter)%list.
Proof. reflexivity. Qed.

(** The line pushed for [disabled: true] carries the bare word [true],
    where the [false] branch of the same conditional has braces. *)
Example disabled_true_line :
  addConfiguredProp liquidToggleDefinition [] ("disabled", VBoolean true)
  = ["      disabled=true"].
Proof. reflexivity. Qed.

(** C1, evaluated: a boolean prop with a [transform] that is [false]
    while its default is [true] does push an attribute line. *)
Lemma boolean_false_emitted_by_transform :
  addConfiguredProp panelDefinition [] ("visible", VBoolean false)
  = ["      visible={false}"]
  /\ addConfiguredProp panelDefinition [] ("visible", VBoolean false) <> [].
Proof. split; [reflexivity | discriminate]. Qed.

Lemma disabled_has_no_transform (propConfig : PropConfig.t) :
  ComponentDefinition.propSchema liquidToggleDefinition !! "disabled"
  = Some propConfig ->
  PropConfig.transform propConfig = None.
Proof. intros Hlookup. vm_compute in Hlookup. by injection Hlookup as <-. Defined.

Lemma boolean_prop_emission_witness :
  ((forall propConfig,
      ComponentDefinition.propSchema liquidToggleDefinition !! "disabled"
      = Some propConfig ->
      PropConfig.transform propConfig = None)
   /\ ComponentDefinition.propSchema panelDefinition !! "visible" = Some visibleConfig
   /\ PropConfig.transform visibleConfig = Some braced)
  /\ addConfiguredProp liquidToggleDefinition [] ("disabled", VBoolean false) = []
  /\ addConfiguredProp panelDefinition [] ("visible", VBoolean false)
     = ["      visible={false}"]
  /\ addConfiguredProp panelDefinition [] ("visible", VBoolean true) = [].
Proof.
  split; [split; [exact disabled_has_no_transform | split; reflexivity]|].
  split; [|split].
  - exact (proj1 (boolean_prop_emission liquidToggleDefinition "disabled" [])
             disabled_has_no_transform).
  - exact (proj2 (boolean_prop_emission panelDefinition "visible" [])
             visibleConfig braced false eq_refl eq_refl).
  - exact (proj2 (boolean_prop_emission panelDefinition "visible" [])
             visibleConfig braced true eq_refl eq_refl).
Defined.

(** C2, evaluated: with the shipped toggle, whose schema has no
    [constructor], the props [{ duration: 800, constructor: 'x' }] give an
    attribute line for [constructor]. *)
Example constructor_attribute :
  ComponentDefinition.propSchema liquidToggleDefinition !! "constructor" = None
  /\ usageLines propsWithConstructor liquidToggleDefinition
     = (usageHeader liquidToggleDefinition
          ++ ["      duration={800}";
              "      constructor=" +:+ dquote +:+ "x" +:+ dquote]
          ++ usageFooter)%list.
Proof. split; reflexivity. Qed.

Lemma inherited_name_printed_witness :
  (ComponentDefinition.propSchema liquidToggleDefinition !! "constructor" = None
   /\ inherited "constructor" = true)
  /\ addConfiguredProp liquidToggleDefinition [] ("constructor", VString "x")
     = ([] ++ ["      " +:+ "constructor" +:+ "=" +:+ dquote +:+ "x" +:+ dquote])%list.
Proof.
  split; [split; reflexivity|].
  exact (proj1 (inherited_name_printed liquidToggleDefinition "constructor" []
                  eq_refl eq_refl) "x").
Defined.

Lemma unknown_or_default_prop_omitted_witness :
  (AnimationConfig.props editedToggle
     = (take 7 (AnimationConfig.props editedToggle)
          ++ ("elevation", num 3) :: [])%list
   /\ AnimationConfig.props editedToggleWithoutElevation
      = (take 7 (AnimationConfig.props editedToggle) ++ [])%list
   /\ ComponentDefinition.propSchema liquidToggleDefinition !! "elevation" = None
   /\ inherited "elevation" = false)
  /\ (AnimationConfig.props editedToggle
        = (take 3 (AnimationConfig.props editedToggle)
             ++ ("delay", num 0) :: drop 4 (AnimationConfig.props editedToggle))%list
      /\ AnimationConfig.props editedToggleWithoutDelay
         = (take 3 (AnimationConfig.props editedToggle)
              ++ drop 4 (AnimationConfig.props editedToggle))%list
      /\ ComponentDefinition.propSchema liquidToggleDefinition !! "delay"
         = Some delayConfig
      /\ strictEq (num 0) (PropConfig.defaultValue delayConfig) = true)
  /\ ((forall lines,
         addConfiguredProp liquidToggleDefinition lines ("elevation", num 3) = lines)
      /\ generateUsageCode editedToggle liquidToggleDefinition
         = generateUsageCode editedToggleWithoutElevation liquidToggleDefinition)
  /\ ((forall lines,
         addConfiguredProp liquidToggleDefinition lines ("delay", num 0) = lines)
      /\ generateUsageCode editedToggle liquidToggleDefinition
         = generateUsageCode editedToggleWithoutDelay liquidToggleDefinition).
Proof.
  split; [repeat split|]. split; [repeat split|]. split.
  - apply (unknown_or_default_prop_omitted editedToggle editedToggleWithoutElevation
             liquidToggleDefinition "elevation" (num 3)
             (take 7 (AnimationConfig.props editedToggle)) []
             eq_refl eq_refl).
    left. split; reflexivity.
  - apply (unknown_or_default_prop_omitted editedToggle editedToggleWithoutDelay
             liquidToggleDefinition "delay" (num 0)
             (take 3 (AnimationConfig.props editedToggle))
             (drop 4 (AnimationConfig.props editedToggle))
             eq_refl eq_refl).
    right. exists delayConfig. split; reflexivity.
Defined.

Lemma transform_undefined_omitted_witness :
  (ComponentDefinition.propSchema panelDefinition !! "accent" = Some accentConfig
   /\ PropConfig.transform accentConfig = Some quotedOrUndefined
   /\ quotedOrUndefined (VString "") = "undefined"
   /\ strictEq (VString "") (PropConfig.defaultValue accentConfig) = false)
  /\ addConfiguredProp panelDefinition [] ("accent", VString "") = []
  /\ addConfiguredProp panelDefinition ["    <Panel"] ("accent", VString "")
     = ["    <Panel"].
Proof.
  split; [repeat split|]. split.
  - exact (proj1 (transform_undefined_omitted panelDefinition "accent" (VString "")
                    accentConfig quotedOrUndefined [] eq_refl eq_refl) eq_refl).
  - exact (proj2 (transform_undefined_omitted panelDefinition "accent" (VString "")
                    accentConfig quotedOrUndefined ["    <Panel"] eq_refl eq_refl)
             eq_refl).
Defined.

(** C4, evaluated: the primary import line of the toggle names the
    component function [LiquidToggle], not the display name
    [Liquid Toggle] held by [definition.name]. *)
Lemma primary_import_not_display_name :
  ComponentDefinition.name liquidToggleDefinition = "Liquid Toggle"
  /\ head (generateImports liquidToggleDefinition)
     = Some "import { LiquidToggle } from '@/components/liquid-components/LiquidToggle'"
  /\ head (generateImports liquidToggleDefinition)
     <> Some (importLine
                (ComponentDefinition.name liquidToggleDefinition
                   :: valueImportNames liquidToggleDefinition)
                (ComponentDefinition.importPath liquidToggleDefinition)).
Proof. split; [reflexivity|]. split; [reflexivity | discriminate]. Qed.

(** The import lines of a definition with two type imports and a value
    import between them. *)
Example imports_of_toggle_with_helpers :
  generateImports toggleWithHelpers
  = ["import { LiquidToggle, GooeyFilter } from '@/components/liquid-components/LiquidToggle'";
     "import type { LiquidToggleProps, LiquidToggleVariant } from '@/components/liquid-components/LiquidToggle'"].
Proof. reflexivity. Qed.

Lemma primary_import_first_witness :
  existsb isTypeImport (declaredImports toggleWithHelpers) = true
  /\ GeneratedCode.imports (generateCode editedToggle toggleWithHelpers) !! 0%nat
     = Some (importLine
               (joinText (fn_name (ComponentDefinition.component toggleWithHelpers))
                  :: valueImportNames toggleWithHelpers)
               (ComponentDefinition.importPath toggleWithHelpers))
  /\ GeneratedCode.imports (generateCode editedToggle toggleWithHelpers) !! 1%nat
     = Some (importTypeLine (typeImportNames toggleWithHelpers)
               (ComponentDefinition.importPath toggleWithHelpers))
  /\ length (GeneratedCode.imports (generateCode editedToggle toggleWithHelpers))
     = 2%nat.
Proof.
  split; [reflexivity|].
  destruct (primary_import_first editedToggle toggleWithHelpers) as [Hfirst Hsecond].
  split; [exact Hfirst | exact (Hsecond eq_refl)].
Defined.

(** C6, evaluated: an empty [componentCode] is not returned; the comment
    is generated in its place. *)
Lemma empty_component_code_not_returned :
  ComponentDefinition.componentCode toggleWithHelpers = Some ""
  /\ GeneratedCode.componentCode (generateCode editedToggle toggleWithHelpers) <> ""
  /\ GeneratedCode.componentCode (generateCode editedToggle toggleWithHelpers)
     = generateComponentCode toggleWithHelpers.
Proof. split; [reflexivity|]. split; [discriminate | reflexivity]. Qed.

Lemma component_code_override_witness :
  (ComponentDefinition.componentCode toggleWithTemplate
     = Some "// Your custom component template here"
   /\ "// Your custom component template here" <> "")
  /\ ComponentDefinition.componentCode liquidToggleDefinition = None
  /\ GeneratedCode.componentCode (generateCode editedToggle toggleWithTemplate)
     = "// Your custom component template here"
  /\ GeneratedCode.componentCode (generateCode editedToggle liquidToggleDefinition)
     = "// Component is defined in: "
         +:+ ComponentDefinition.importPath liquidToggleDefinition +:+ newline
         +:+ "// Use the import statement above to use this component".
Proof.
  split; [split; [reflexivity | discriminate]|]. split; [reflexivity|]. split.
  - apply (proj1 (component_code_override editedToggle toggleWithTemplate)
             "// Your custom component template here" eq_refl).
    discriminate.
  - apply (proj2 (component_code_override editedToggle liquidToggleDefinition)).
    left. reflexivity.
Defined.

(** The CSS code of the edit session: the duration alone differs from its
    default among the animation props. *)
Example css_of_edited_toggle :
  generateCSSCode editedToggle liquidToggleDefinition
  = Some (".animated-element {" +:+ newline
            +:+ "  transition-duration: 800ms;" +:+ newline +:+ "}").
Proof. reflexivity. Qed.

Lemma css_lines_filtered_witness :
  (ComponentDefinition.propSchema liquidToggleDefinition !! "variant"
     = Some variantConfig
   /\ PropConfig.isAnimationProp variantConfig <> Some true
   /\ strictEq (VString "success") (PropConfig.defaultValue variantConfig) = false
   /\ AnimationConfig.props editedToggle
      = ([] ++ ("variant", VString "success")
            :: tail (AnimationConfig.props editedToggle))%list
   /\ AnimationConfig.props editedToggleWithoutVariant
      = ([] ++ tail (AnimationConfig.props editedToggle))%list)
  /\ addCssProp liquidToggleDefinition [] ("variant", VString "success") = []
  /\ generateCSSCode editedToggle liquidToggleDefinition
     = generateCSSCode editedToggleWithoutVariant liquidToggleDefinition
  /\ addCssProp liquidToggleDefinition [] ("delay", VNumber (Number_ofZ 0)) = [].
Proof.
  split; [repeat split; discriminate|].
  destruct (css_lines_filtered editedToggle editedToggleWithoutVariant
              liquidToggleDefinition [] "variant" (VString "success")
              [] (tail (AnimationConfig.props editedToggle)))
    as (_ & Hdelay & Hplain).
  destruct (Hplain variantConfig eq_refl) as [Hsilent Hdropped]; [discriminate|].
  split; [exact Hsilent|]. split; [exact (Hdropped eq_refl eq_refl) | exact Hdelay].
Defined.

Lemma css_code_absent_or_block_witness :
  (cssLines freshToggle liquidToggleDefinition = []
   /\ cssLines editedToggle liquidToggleDefinition <> [])
  /\ GeneratedCode.cssCode (generateCode freshToggle liquidToggleDefinition) = None
  /\ GeneratedCode.cssCode (generateCode editedToggle liquidToggleDefinition)
     = Some (".animated-element {" +:+ newline
               +:+ join newline (cssLines editedToggle liquidToggleDefinition)
               +:+ newline +:+ "}").
Proof.
  split; [split; [reflexivity | discriminate]|]. split.
  - exact (proj1 (css_code_absent_or_block freshToggle liquidToggleDefinition) eq_refl).
  - apply (proj1 (proj2 (css_code_absent_or_block editedToggle liquidToggleDefinition))).
    discriminate.
Defined.

(** Running [initializeComponents] a second time throws at its first
    registration and leaves the three definitions in place. *)
Example initializeComponents_twice :
  initializeComponents initialized
  = (Eff.Thrown (alreadyRegistered "liquid-toggle"), initialized)
  /\ map ComponentDefinition.id (JSMap.values initialized)
     = ["liquid-toggle"; "liquid-checkbox"; "liquid-button"].
Proof. split; reflexivity. Qed.

Lemma duplicate_registration_rejected_witness :
  (JSMap.has initialized (ComponentDefinition.id receivedTemplate) = true
   /\ JSMap.has ([] : registry) (ComponentDefinition.id receivedToggle) = false
   /\ is_Some (ComponentDefinition.component receivedToggle)
   /\ is_Some (ComponentDefinition.propSchema receivedToggle)
   /\ ComponentDefinition.id receivedTemplate = ComponentDefinition.id receivedToggle)
  /\ registerComponent receivedTemplate initialized
     = (Eff.Thrown (alreadyRegistered "liquid-toggle"), initialized)
  /\ JSMap.get initialized "liquid-toggle" = Some receivedToggle
  /\ exists registered,
       registerComponent receivedToggle [] = (Eff.Returned tt, registered)
       /\ registerComponent receivedTemplate registered
          = (Eff.Thrown (alreadyRegistered "liquid-toggle"), registered)
       /\ getComponent "liquid-toggle" registered
          = (Eff.Returned (Some receivedToggle), registered).
Proof.
  assert (Hcomponent : is_Some (ComponentDefinition.component receivedToggle))
    by (eexists; reflexivity).
  assert (Hschema : is_Some (ComponentDefinition.propSchema receivedToggle))
    by (eexists; reflexivity).
  split; [repeat split; assumption|].
  destruct (duplicate_registration_rejected initialized
              receivedToggle receivedTemplate) as [Hdup _].
  destruct (duplicate_registration_rejected []
              receivedToggle receivedTemplate) as [_ Hsecond].
  split; [exact (Hdup eq_refl)|]. split; [reflexivity|].
  exact (Hsecond eq_refl Hcomponent Hschema eq_refl).
Defined.
End Evaluation.

(** ** More on the registry *)

Section MoreMapLaws.
Context {V : Type}.

Lemma set_fresh (m : JSMap.t V) (k : string) (v : V) :
  JSMap.has m k = false -> JSMap.set m k v = (m ++ [(k, v)])%list.
Proof.
  unfold JSMap.has. induction m as [|[k' v'] rest IH]; cbn; [done|].
  destruct (String.eqb k' k); [done|]. intros Hrest. by rewrite IH.
Qed.

Lemma set_in_place (before after : JSMap.t V) (k : string) (old v : V) :
  k ∉ keys before ->
  JSMap.set (before ++ (k, old) :: after)%list k v
  = (before ++ (k, v) :: after)%list.
Proof.
  induction before as [|[k' v'] rest IH]; cbn; intros Hnotin.
  - by rewrite String.eqb_refl.
  - apply not_elem_of_cons in Hnotin as [Hne Hrest].
    destruct (String.eqb k' k) eqn:E.
    + apply String.eqb_eq in E. congruence.
    + by rewrite IH.
Qed.

Lemma set_same (m : JSMap.t V) (k : string) (v : V) :
  JSMap.get m k = Some v -> JSMap.set m k v = m.
Proof.
  induction m as [|[k' v'] rest IH]; cbn; [done|].
  destruct (String.eqb k' k) eqn:E.
  - by intros [= ->].
  - intros Hrest. by rewrite IH.
Qed.

Lemma set_set (m : JSMap.t V) (k : string) (v v' : V) :
  JSMap.set (JSMap.set m k v) k v' = JSMap.set m k v'.
Proof.
  induction m as [|[k0 v0] rest IH]; cbn.
  - by rewrite String.eqb_refl.
  - destruct (String.eqb k0 k) eqn:E; cbn; rewrite E; [done | by rewrite IH].
Qed.

Lemma set_set_ne (m : JSMap.t V) (k k' : string) (v v' : V) :
  k <> k' -> JSMap.has m k = true -> JSMap.has m k' = true ->
  JSMap.set (JSMap.set m k v) k' v' = JSMap.set (JSMap.set m k' v') k v.
Proof.
  unfold JSMap.has. intros Hne.
  induction m as [|[k0 v0] rest IH]; cbn; [done|].
  destruct (String.eqb k0 k) eqn:E, (String.eqb k0 k') eqn:E'; cbn;
    rewrite ?E, ?E'; try done.
  - apply String.eqb_eq in E, E'. congruence.
  - intros Hk Hk'. by rewrite IH.
Qed.

Lemma keys_set (m : JSMap.t V) (k : string) (v : V) :
  keys (JSMap.set m k v)
  = if JSMap.has m k then keys m else (keys m ++ [k])%list.
Proof.
  unfold JSMap.has, keys. induction m as [|[k' v'] rest IH]; cbn; [done|].
  destruct (String.eqb k' k) eqn:E; cbn; [done|].
  rewrite IH. by destruct (JSMap.get rest k).
Qed.

Lemma has_elem_of_keys (m : JSMap.t V) (k : string) :
  JSMap.has m k = true <-> k ∈ keys m.
Proof.
  unfold JSMap.has, keys. induction m as [|[k' v'] rest IH]; cbn.
  - split; [done | by intros ?%elem_of_nil].
  - rewrite elem_of_cons. destruct (String.eqb k' k) eqn:E.
    + apply String.eqb_eq in E. subst. split; auto.
    + apply String.eqb_neq in E. rewrite IH. split; [auto | by intros [?|?]].
Qed.

Lemma NoDup_keys_set (m : JSMap.t V) (k : string) (v : V) :
  NoDup (keys m) -> NoDup (keys (JSMap.set m k v)).
Proof.
  intros Hnodup. rewrite keys_set. destruct (JSMap.has m k) eqn:E; [done|].
  apply NoDup_app. split; [done|]. split; [|apply NoDup_singleton].
  intros x Hx ->%list_elem_of_singleton.
  apply has_elem_of_keys in Hx. congruence.
Qed.

Lemma keys_delete_sublist (m : JSMap.t V) (k : string) :
  sublist (keys (JSMap.delete m k)) (keys m).
Proof.
  unfold keys. induction m as [|[k' v'] rest IH]; cbn; [done|].
  destruct (String.eqb k' k); cbn.
  - by apply sublist_cons.
  - by apply sublist_skip.
Qed.

Lemma get_delete_eq (m : JSMap.t V) (k : string) :
  NoDup (keys m) -> JSMap.get (JSMap.delete m k) k = None.
Proof.
  unfold keys. induction m as [|[k' v'] rest IH]; cbn; [done|].
  intros [Hnotin Hrest]%NoDup_cons. destruct (String.eqb k' k) eqn:E; cbn.
  - apply String.eqb_eq in E. subst k'.
    destruct (JSMap.get rest k) eqn:G; [|done].
    exfalso. apply Hnotin. apply (has_elem_of_keys rest k).
    unfold JSMap.has. by rewrite G.
  - rewrite E. by apply IH.
Qed.

Lemma get_delete_ne (m : JSMap.t V) (k k' : string) :
  k <> k' -> JSMap.get (JSMap.delete m k) k' = JSMap.get m k'.
Proof.
  intros Hne. induction m as [|[k0 v0] rest IH]; cbn; [done|].
  destruct (String.eqb k0 k) eqn:E; cbn.
  - apply String.eqb_eq in E. subst k0.
    apply String.eqb_neq in Hne. by rewrite Hne.
  - by rewrite IH.
Qed.

Lemma delete_missing (m : JSMap.t V) (k : string) :
  JSMap.has m k = false -> JSMap.delete m k = m.
Proof.
  unfold JSMap.has. induction m as [|[k' v'] rest IH]; cbn; [done|].
  destruct (String.eqb k' k); [done|]. intros Hrest. by rewrite IH.
Qed.
End MoreMapLaws.

Section RegistryOperations.
Context `{JSNumber}.
Import ComponentRegistry.

(** What the registry holds after each operation. *)
Lemma registerComponent_state (definition : ComponentDefinition.received)
    (reg : registry) :
  snd (registerComponent definition reg) = reg
  \/ snd (registerComponent definition reg)
     = JSMap.set reg (ComponentDefinition.id definition) definition.
Proof.
  unfold registerComponent, Eff.bind, Eff.reads, Eff.throw, Eff.update.
  destruct (JSMap.has reg (ComponentDefinition.id definition)); [by left|].
  destruct (ComponentDefinition.component definition); [|by left].
  destruct (ComponentDefinition.propSchema definition); [by right | by left].
Qed.

Lemma unregisterComponent_eq (id : string) (reg : registry) :
  unregisterComponent id reg = (Eff.Returned (JSMap.has reg id), JSMap.delete reg id).
Proof. reflexivity. Qed.

Lemma keyedById_set (reg : registry) (definition : ComponentDefinition.received) :
  keyedById reg ->
  keyedById (JSMap.set reg (ComponentDefinition.id definition) definition).
Proof.
  unfold keyedById. induction reg as [|[k d] rest IH]; cbn.
  - intros _. by repeat constructor.
  - intros [Hhead Hrest]%Forall_cons.
    destruct (String.eqb k (ComponentDefinition.id definition)) eqn:E.
    + apply String.eqb_eq in E. constructor; [by cbn | done].
    + constructor; [done | by apply IH].
Qed.

Lemma keyedById_delete (reg : registry) (id : string) :
  keyedById reg -> keyedById (JSMap.delete reg id).
Proof.
  unfold keyedById. induction reg as [|[k d] rest IH]; cbn; [done|].
  intros [Hhead Hrest]%Forall_cons.
  destruct (String.eqb k id); [done|]. constructor; [done | by apply IH].
Qed.

Lemma reachable_invariant (reg : registry) :
  reachable reg -> NoDup (keys reg) /\ keyedById reg.
Proof.
  induction 1 as [|definition reg _ [Hnodup Hkeyed]|id reg _ [Hnodup Hkeyed]
                  |reg _ _].
  - split; [apply NoDup_nil_2 | constructor].
  - destruct (registerComponent_state definition reg) as [-> | ->]; [done|].
    split; [by apply NoDup_keys_set | by apply keyedById_set].
  - rewrite unregisterComponent_eq. cbn [snd]. split.
    + eapply sublist_NoDup; [|apply keys_delete_sublist]. done.
    + by apply keyedById_delete.
  - split; [apply NoDup_nil_2 | constructor].
Qed.

Lemma get_keyed (reg : registry) (id : string)
    (definition : ComponentDefinition.received) :
  keyedById reg -> JSMap.get reg id = Some definition ->
  ComponentDefinition.id definition = id.
Proof.
  unfold keyedById. induction reg as [|[k d] rest IH]; cbn; [done|].
  intros [Hhead Hrest]%Forall_cons.
  destruct (String.eqb k id) eqn:E; [|by apply IH].
  apply String.eqb_eq in E. intros [= <-]. cbn in Hhead. congruence.
Qed.

Lemma ids_keyed (reg : registry) :
  keyedById reg -> map ComponentDefinition.id (JSMap.values reg) = keys reg.
Proof.
  unfold keyedById, JSMap.values, keys. induction 1 as [|[k d] rest Hhead _ IH]; cbn.
  - done.
  - cbn in Hhead. by rewrite IH, Hhead.
Qed.

(** X1: in every registry built by [registerComponent],
    [unregisterComponent] and [clearRegistry] from the empty one, no two
    registered definitions have the same id, and [getComponent(id)] only
    ever returns a definition whose id is [id]. *)
Theorem registry_ids_unique (reg : registry) :
  reachable reg ->
  (exists all,
     getAllComponents reg = (Eff.Returned all, reg)
     /\ NoDup (map ComponentDefinition.id all))
  /\ (forall id definition,
        getComponent id reg = (Eff.Returned (Some definition), reg) ->
        ComponentDefinition.id definition = id).
Proof.
  intros [Hnodup Hkeyed]%reachable_invariant. split.
  - eexists. split; [reflexivity|]. by rewrite ids_keyed.
  - intros id definition [= Hget]. by eapply get_keyed.
Qed.

(** X2: for a definition whose id is not in the registry,
    [registerComponent] throws "is missing the component property" when
    the definition has no component, throws "is missing propSchema" when it
    has a component and no prop schema, both with the registry left as it
    was, and succeeds when it has both; then [getComponent] finds that
    definition under its id, every other id resolves as before, and
    [getAllComponents] lists the earlier definitions in their order,
    followed by the new one. *)
Theorem fresh_registration_found (reg : registry)
    (definition : ComponentDefinition.received) :
  JSMap.has reg (ComponentDefinition.id definition) = false ->
  (ComponentDefinition.component definition = None ->
   registerComponent definition reg
   = (Eff.Thrown (missingComponent (ComponentDefinition.id definition)), reg))
  /\ (is_Some (ComponentDefinition.component definition) ->
      ComponentDefinition.propSchema definition = None ->
      registerComponent definition reg
      = (Eff.Thrown (missingPropSchema (ComponentDefinition.id definition)), reg))
  /\ (is_Some (ComponentDefinition.component definition) ->
      is_Some (ComponentDefinition.propSchema definition) ->
      exists registered,
        registerComponent definition reg = (Eff.Returned tt, registered)
        /\ getComponent (ComponentDefinition.id definition) registered
           = (Eff.Returned (Some definition), registered)
        /\ (forall other,
              other <> ComponentDefinition.id definition ->
              fst (getComponent other registered) = fst (getComponent other reg))
        /\ getAllComponents registered
           = (Eff.Returned (JSMap.values reg ++ [definition])%list, registered)).
Proof.
  intros Hfresh. split; [|split].
  - intros Hcomponent. unfold registerComponent, Eff.bind, Eff.reads.
    by rewrite Hfresh, Hcomponent.
  - intros [c Hcomponent] Hschema. unfold registerComponent, Eff.bind, Eff.reads.
    by rewrite Hfresh, Hcomponent, Hschema.
  - intros Hcomponent Hschema.
    eexists. split; [by apply registerComponent_fresh|].
    unfold getComponent, getAllComponents, Eff.reads. cbn [fst]. split; [|split].
    + by rewrite get_set_eq.
    + intros other Hother. by rewrite get_set_ne.
    + rewrite set_fresh by done. unfold JSMap.values. by rewrite map_app.
Qed.

(** X3: on a registry built by the operations, [unregisterComponent(id)]
    returns whether [id] was registered; afterwards [id] is not registered,
    every other id resolves as before, and when [id] was not registered the
    registry is left as it was. *)
Theorem unregister_removes (reg : registry) (id : string) :
  reachable reg ->
  exists remaining,
    unregisterComponent id reg = (Eff.Returned (JSMap.has reg id), remaining)
    /\ hasComponent id remaining = (Eff.Returned false, remaining)
    /\ (forall other,
          other <> id ->
          fst (getComponent other remaining) = fst (getComponent other reg))
    /\ (JSMap.has reg id = false -> remaining = reg).
Proof.
  intros [Hnodup _]%reachable_invariant.
  eexists. split; [apply unregisterComponent_eq|].
  unfold hasComponent, getComponent, Eff.reads, JSMap.has. cbn [fst].
  split; [|split].
  - by rewrite get_delete_eq.
  - intros other Hother. by rewrite get_delete_ne.
  - apply delete_missing.
Qed.

(** X4: on a registry built by the operations, unregistering the id of a
    definition that has its component and its prop schema and registering
    the definition again always succeeds, whether or not the id was
    registered; the definition is then found under its id and is the last
    one of [getAllComponents]. *)
Theorem unregister_then_register (reg : registry)
    (definition : ComponentDefinition.received) :
  reachable reg ->
  is_Some (ComponentDefinition.component definition) ->
  is_Some (ComponentDefinition.propSchema definition) ->
  let id := ComponentDefinition.id definition in
  let replaced := (JSMap.delete reg id ++ [(id, definition)])%list in
  (let* _ := unregisterComponent id in registerComponent definition)%eff reg
  = (Eff.Returned tt, replaced)
  /\ getComponent id replaced = (Eff.Returned (Some definition), replaced)
  /\ last (JSMap.values replaced) = Some definition.
Proof.
  intros [Hnodup _]%reachable_invariant Hcomponent Hschema id replaced.
  assert (Hgone : JSMap.has (JSMap.delete reg id) id = false).
  { unfold JSMap.has. by rewrite get_delete_eq. }
  split; [|split].
  - unfold Eff.bind. rewrite unregisterComponent_eq.
    rewrite registerComponent_fresh by done. by rewrite set_fresh.
  - unfold getComponent, Eff.reads, replaced.
    rewrite <- (set_fresh _ _ _ Hgone). by rewrite get_set_eq.
  - unfold replaced, JSMap.values. rewrite map_app. cbn. apply last_snoc.
Qed.

Lemma hasCategory_spec (category : string) (definition : ComponentDefinition.received) :
  hasCategory category definition = true
  <-> ComponentDefinition.category definition = Some category.
Proof.
  unfold hasCategory. destruct (ComponentDefinition.category definition) as [c|].
  - rewrite String.eqb_eq. split; [by intros -> | by intros [= ->]].
  - split; discriminate.
Qed.

Lemma hasTag_spec (tag : string) (definition : ComponentDefinition.received) :
  hasTag tag definition = true
  <-> exists tags, ComponentDefinition.tags definition = Some tags /\ In tag tags.
Proof.
  unfold hasTag. destruct (ComponentDefinition.tags definition) as [tags|].
  - rewrite existsb_exists. split.
    + intros (t & Hin & ->%String.eqb_eq). eauto.
    + intros (tags' & [= <-] & Hin). exists tag. split; [done | apply String.eqb_refl].
  - split; [discriminate | by intros (tags & ? & _)].
Qed.

Lemma filter_sublist {A} (f : A -> bool) (l : list A) : sublist (List.filter f l) l.
Proof.
  induction l as [|x rest IH]; cbn; [done|].
  destruct (f x); [by apply sublist_skip | by apply sublist_cons].
Qed.

(** X5: [getComponentsByCategory(category)] returns, in registration
    order, exactly the registered definitions whose category is
    [category], and [getComponentsByTag(tag)] exactly those whose tags
    include [tag]; a definition without category or without tags is in
    neither. Registering a definition, with its component and prop schema,
    under a new id adds it at the end of the result for its own category
    and for each of its tags, and leaves the results for every other
    category and tag as they were. *)
Theorem registration_extends_filters (reg : registry)
    (definition : ComponentDefinition.received) (category tag : string) :
  JSMap.has reg (ComponentDefinition.id definition) = false ->
  is_Some (ComponentDefinition.component definition) ->
  is_Some (ComponentDefinition.propSchema definition) ->
  exists registered inCategory tagged,
    registerComponent definition reg = (Eff.Returned tt, registered)
    /\ getComponentsByCategory category reg = (Eff.Returned inCategory, reg)
    /\ getComponentsByTag tag reg = (Eff.Returned tagged, reg)
    /\ sublist inCategory (JSMap.values reg)
    /\ sublist tagged (JSMap.values reg)
    /\ (forall d,
          In d inCategory
          <-> In d (JSMap.values reg)
              /\ ComponentDefinition.category d = Some category)
    /\ (forall d,
          In d tagged
          <-> In d (JSMap.values reg)
              /\ exists tags,
                   ComponentDefinition.tags d = Some tags /\ In tag tags)
    /\ getComponentsByCategory category registered
       = (Eff.Returned
            (inCategory
               ++ if decide (ComponentDefinition.category definition = Some category)
                  then [definition] else [])%list,
          registered)
    /\ getComponentsByTag tag registered
       = (Eff.Returned
            (tagged
               ++ match ComponentDefinition.tags definition with
                  | Some tags => if decide (tag ∈ tags) then [definition] else []
                  | None => []
                  end)%list,
          registered).
Proof.
  intros Hfresh Hcomponent Hschema.
  exists (JSMap.set reg (ComponentDefinition.id definition) definition),
         (List.filter (hasCategory category) (JSMap.values reg)),
         (List.filter (hasTag tag) (JSMap.values reg)).
  split; [by apply registerComponent_fresh|].
  split; [reflexivity|]. split; [reflexivity|].
  split; [apply filter_sublist|]. split; [apply filter_sublist|].
  split; [intros d; by rewrite filter_In, hasCategory_spec|].
  split; [intros d; by rewrite filter_In, hasTag_spec|].
  rewrite set_fresh by done.
  unfold getComponentsByCategory, getComponentsByTag, getAllComponents,
    Eff.bind, Eff.reads, Eff.ret, JSMap.values.
  rewrite map_app, !List.filter_app. cbn [map List.filter snd]. split.
  - do 3 f_equal. case_decide as Hcategory.
    + apply hasCategory_spec in Hcategory. by rewrite Hcategory.
    + destruct (hasCategory category definition) eqn:E; [|done].
      apply hasCategory_spec in E. done.
  - do 3 f_equal. destruct (hasTag tag definition) eqn:E.
    + apply hasTag_spec in E as (tags & -> & Hin).
      rewrite decide_True; [done | by apply list_elem_of_In].
    + destruct (ComponentDefinition.tags definition) as [tags|] eqn:Htags; [|done].
      rewrite decide_False; [done|]. intros Hin%list_elem_of_In.
      assert (hasTag tag definition = true) by (apply hasTag_spec; eauto).
      congruence.
Qed.
End RegistryOperations.

Section Initialization.
Context `{JSNumber}.
Import ComponentRegistry Definitions.

(** A definition of the declared type passes the validation. *)
Lemma registerComponent_eq (definition : ComponentDefinition.t) (reg : registry) :
  registerComponent (ComponentDefinition.asReceived definition) reg
  = if JSMap.has reg (ComponentDefinition.id definition)
    then (Eff.Thrown (alreadyRegistered (ComponentDefinition.id definition)), reg)
    else (Eff.Returned tt,
          JSMap.set reg (ComponentDefinition.id definition)
            (ComponentDefinition.asReceived definition)).
Proof.
  unfold registerComponent, Eff.bind, Eff.reads.
  cbn [ComponentDefinition.asReceived ComponentDefinition.id
       ComponentDefinition.component ComponentDefinition.propSchema
       objectToBoolean negb].
  by destruct (JSMap.has reg (ComponentDefinition.id definition)).
Qed.

Lemma has_set_ne {V} (m : JSMap.t V) (k k' : string) (v : V) :
  k <> k' -> JSMap.has (JSMap.set m k v) k' = JSMap.has m k'.
Proof. intros Hne. unfold JSMap.has. by rewrite get_set_ne. Qed.

(** X6: whatever the registry, a call of [initializeComponents] that
    succeeds makes the next call throw at its first registration, with the
    registry left as the first call made it. *)
Theorem initializeComponents_only_once (reg initialized : registry) :
  initializeComponents reg = (Eff.Returned tt, initialized) ->
  initializeComponents initialized
  = (Eff.Thrown (alreadyRegistered "liquid-toggle"), initialized).
Proof.
  unfold initializeComponents, Eff.bind. rewrite !registerComponent_eq.
  cbn [ComponentDefinition.id liquidToggleDefinition liquidCheckboxDefinition
       liquidButtonDefinition].
  destruct (JSMap.has reg "liquid-toggle") eqn:Htoggle; [done|].
  rewrite !registerComponent_eq.
  cbn [ComponentDefinition.id liquidToggleDefinition liquidCheckboxDefinition
       liquidButtonDefinition].
  destruct (JSMap.has _ "liquid-checkbox"); [done|].
  rewrite !registerComponent_eq.
  cbn [ComponentDefinition.id liquidToggleDefinition liquidCheckboxDefinition
       liquidButtonDefinition].
  destruct (JSMap.has _ "liquid-button"); [done|].
  intros [= <-].
  rewrite !has_set_ne, has_set by done. done.
Qed.

(** X7: [initializeComponents] is not all or nothing: on a registry that
    lacks [liquid-toggle] but holds [liquid-checkbox] it throws at the
    second registration, and the toggle it registered first stays
    registered. *)
Theorem initializeComponents_partial (reg : registry) :
  JSMap.has reg "liquid-toggle" = false ->
  JSMap.has reg "liquid-checkbox" = true ->
  initializeComponents reg
  = (Eff.Thrown (alreadyRegistered "liquid-checkbox"),
     (reg ++ [("liquid-toggle", ComponentDefinition.asReceived liquidToggleDefinition)])%list).
Proof.
  intros Htoggle Hcheckbox.
  unfold initializeComponents, Eff.bind. rewrite !registerComponent_eq.
  cbn [ComponentDefinition.id liquidToggleDefinition liquidCheckboxDefinition
       liquidButtonDefinition].
  rewrite Htoggle, registerComponent_eq.
  cbn [ComponentDefinition.id liquidToggleDefinition liquidCheckboxDefinition
       liquidButtonDefinition].
  rewrite has_set_ne, Hcheckbox by done. by rewrite set_fresh.
Qed.

(** X8: whatever the registry holds, [clearRegistry] followed by
    [initializeComponents] succeeds and leaves exactly the three shipped
    definitions, in the order toggle, checkbox, button. *)
Theorem clear_then_initialize (reg : registry) :
  (let* _ := clearRegistry in initializeComponents)%eff reg
  = (Eff.Returned tt,
     [("liquid-toggle", ComponentDefinition.asReceived liquidToggleDefinition);
      ("liquid-checkbox", ComponentDefinition.asReceived liquidCheckboxDefinition);
      ("liquid-button", ComponentDefinition.asReceived liquidButtonDefinition)])
  /\ (let* _ := clearRegistry in
      let* _ := initializeComponents in getAllComponents)%eff reg
     = (Eff.Returned
          [ComponentDefinition.asReceived liquidToggleDefinition;
           ComponentDefinition.asReceived liquidCheckboxDefinition;
           ComponentDefinition.asReceived liquidButtonDefinition],
        [("liquid-toggle", ComponentDefinition.asReceived liquidToggleDefinition);
         ("liquid-checkbox", ComponentDefinition.asReceived liquidCheckboxDefinition);
         ("liquid-button", ComponentDefinition.asReceived liquidButtonDefinition)]).
Proof. split; reflexivity. Qed.
End Initialization.

(** ** More on the generated code *)

Section MoreUsage.
Context `{JSNumber}.

(** The guard on two empty strings never decides alone: when it holds, the
    value is already strictly equal to the default. *)
Lemma empty_guard_covered (value defaultValue : value) :
  strictEq value (VString "") && strictEq defaultValue (VString "") = true ->
  strictEq value defaultValue = true.
Proof.
  intros [Hvalue Hdefault]%andb_prop.
  destruct value as [| | |n|s]; try discriminate.
  destruct defaultValue as [| | |n'|s']; try discriminate.
  cbn in *. apply String.eqb_eq in Hvalue, Hdefault. subst. done.
Qed.

Lemma empty_guard_off (value defaultValue : value) :
  strictEq value defaultValue = false ->
  strictEq value (VString "") && strictEq defaultValue (VString "") = false.
Proof.
  intros Hdiff.
  destruct (strictEq value (VString "") && strictEq defaultValue (VString ""))
    eqn:E; [|done].
  apply empty_guard_covered in E. congruence.
Qed.

(** What one entry pushes: nothing, or one attribute line for a key that
    [definition.propSchema[key]] finds, with a value that is not the
    default of what is found. *)
Lemma addConfiguredProp_cases (definition : ComponentDefinition.t)
    (key : string) (value : value) :
  addConfiguredProp definition [] (key, value) = []
  \/ exists member formattedValue,
       schemaLookup definition key = Some member
       /\ strictEq value (memberDefaultValue member) = false
       /\ addConfiguredProp definition [] (key, value)
          = ["      " +:+ key +:+ "=" +:+ formattedValue].
Proof.
  unfold addConfiguredProp, push, attributeLine.
  destruct (schemaLookup definition key) as [member|]; [|by left].
  destruct (strictEq value (memberDefaultValue member)) eqn:Hdiff; [by left|].
  repeat case_match; first [by left | right; by eexists _, _].
Qed.

Lemma schemaLookup_found (definition : ComponentDefinition.t) (key : string)
    (member : schemaMember) :
  schemaLookup definition key = Some member ->
  (is_Some (ComponentDefinition.propSchema definition !! key)
   \/ inherited key = true)
  /\ (forall propConfig,
        ComponentDefinition.propSchema definition !! key = Some propConfig ->
        member = OwnConfig propConfig).
Proof.
  unfold schemaLookup.
  destruct (ComponentDefinition.propSchema definition !! key) as [propConfig|].
  - intros [= <-]. split; [left; by eexists | by intros ? [= ->]].
  - destruct (inherited key); [|done]. intros _. split; [by right | done].
Qed.

(** X9: the usage code is made of the thirteen opening lines, which name
    the component function (the word [undefined] for a component without
    [name]) and the import path, then the attribute lines, then the three
    closing lines. The attribute lines are written for some of the entries
    of [props], in the order of [props] and at most one per entry, each of
    the form six spaces, key, [=], text; an entry is written only when its
    key is in the schema or names a property inherited from
    [Object.prototype], and only when its value is not the default that the
    schema gives for the key. *)
Theorem usage_code_shape (config : AnimationConfig.t)
    (definition : ComponentDefinition.t) :
  let componentName :=
    templateText (fn_name (ComponentDefinition.component definition)) in
  exists written : list (string * value * string),
    usageLines config definition
    = (["// Usage Example"; "'use client'"; "";
        "import { useState } from 'react'";
        "import { " +:+ componentName +:+ " } from '"
          +:+ ComponentDefinition.importPath definition +:+ "'";
        ""; "export function Example() {";
        "  const [checked, setChecked] = useState(false)"; "";
        "  return ("; "    <" +:+ componentName;
        "      checked={checked}"; "      onCheckedChange={setChecked}"]
         ++ map (fun w => "      " +:+ fst (fst w) +:+ "=" +:+ snd w) written
         ++ ["    />"; "  )"; "}"])%list
    /\ sublist (map fst written) (AnimationConfig.props config)
    /\ (forall key value formattedValue,
          In (key, value, formattedValue) written ->
          (is_Some (ComponentDefinition.propSchema definition !! key)
           \/ inherited key = true)
          /\ (forall propConfig,
                ComponentDefinition.propSchema definition !! key = Some propConfig ->
                strictEq value (PropConfig.defaultValue propConfig) = false)).
Proof.
  cbn zeta. rewrite usageLines_eq.
  enough (exists written : list (string * value * string),
            flat_map (addConfiguredProp definition []) (AnimationConfig.props config)
            = map (fun w => "      " +:+ fst (fst w) +:+ "=" +:+ snd w) written
            /\ sublist (map fst written) (AnimationConfig.props config)
            /\ (forall key value formattedValue,
                  In (key, value, formattedValue) written ->
                  (is_Some (ComponentDefinition.propSchema definition !! key)
                   \/ inherited key = true)
                  /\ (forall propConfig,
                        ComponentDefinition.propSchema definition !! key
                        = Some propConfig ->
                        strictEq value (PropConfig.defaultValue propConfig) = false)))
    as (written & -> & Hrest).
  { exists written. split; [reflexivity | done]. }
  induction (AnimationConfig.props config)
    as [|[key value] rest (written & Hlines & Hsub & Hin)]; cbn [flat_map].
  - exists []. split; [done|]. split; [constructor | by intros ? ? ? []].
  - destruct (addConfiguredProp_cases definition key value)
      as [Hsilent | (member & formattedValue & Hfound & Hdiff & Hline)].
    + exists written. rewrite Hsilent. cbn [app].
      split; [done|]. split; [by apply sublist_cons | done].
    + exists ((key, value, formattedValue) :: written).
      rewrite Hline, Hlines. cbn [app map fst snd].
      split; [done|]. split; [by apply sublist_skip|].
      intros k v fv [[= <- <- <-] | Hw]; [|by eapply Hin].
      destruct (schemaLookup_found _ _ _ Hfound) as [Hknown Hown].
      split; [done|]. intros propConfig Hschema.
      by rewrite (Hown _ Hschema) in Hdiff.
Qed.

(** X10: for a prop of the schema that has no [transform], a string that
    is not the default is written in double quotes (the empty string too,
    as [key=""], when the default is not empty), and a number that is not
    the default is written in braces. *)
Theorem plain_prop_attribute (definition : ComponentDefinition.t)
    (key : string) (propConfig : PropConfig.t) (lines : list string) :
  ComponentDefinition.propSchema definition !! key = Some propConfig ->
  PropConfig.transform propConfig = None ->
  (forall s,
     strictEq (VString s) (PropConfig.defaultValue propConfig) = false ->
     addConfiguredProp definition lines (key, VString s)
     = (lines ++ ["      " +:+ key +:+ "=" +:+ dquote +:+ s +:+ dquote])%list)
  /\ (forall n,
        strictEq (VNumber n) (PropConfig.defaultValue propConfig) = false ->
        addConfiguredProp definition lines (key, VNumber n)
        = (lines ++ ["      " +:+ key +:+ "={" +:+ Number_toString n +:+ "}"])%list).
Proof.
  intros Hschema Htransform. unfold addConfiguredProp.
  rewrite (schemaLookup_own _ _ _ Hschema).
  cbn [memberDefaultValue memberTransform]. rewrite Htransform. split.
  - intros s Hdiff. by rewrite Hdiff, (empty_guard_off _ _ Hdiff).
  - intros n Hdiff. by rewrite Hdiff.
Qed.

(** X11: for a prop of the schema that has a [transform], a value that is
    not the default is written as the text the transform returns for it,
    whatever the type of the value, unless that text is "undefined". *)
Theorem transformed_prop_attribute (definition : ComponentDefinition.t)
    (key : string) (value : JS.value) (propConfig : PropConfig.t)
    (transform : JS.value -> string) (lines : list string) :
  ComponentDefinition.propSchema definition !! key = Some propConfig ->
  PropConfig.transform propConfig = Some transform ->
  strictEq value (PropConfig.defaultValue propConfig) = false ->
  transform value <> "undefined" ->
  addConfiguredProp definition lines (key, value)
  = (lines ++ ["      " +:+ key +:+ "=" +:+ transform value])%list.
Proof.
  intros Hschema Htransform Hdiff Hdefined. unfold addConfiguredProp.
  rewrite (schemaLookup_own _ _ _ Hschema).
  cbn [memberDefaultValue memberTransform].
  rewrite Htransform, Hdiff, (empty_guard_off _ _ Hdiff).
  apply String.eqb_neq in Hdefined. by rewrite Hdefined.
Qed.

(** X12: the import line inside the usage code, its fifth line, names the
    component function alone, whatever [additionalImports] holds. For a
    component that has a [name] it is the first entry of [imports] when the
    definition brings no value import. For a component without [name] (what
    [forwardRef] or [memo] returns) the two differ: the usage code imports
    the word [undefined], the first entry of [imports] an empty name. *)
Theorem usage_import_line (config : AnimationConfig.t)
    (definition : ComponentDefinition.t) :
  let fifth := usageLines config definition !! 4%nat in
  let first := GeneratedCode.imports (generateCode config definition) !! 0%nat in
  let path := ComponentDefinition.importPath definition in
  (forall componentName,
     fn_name (ComponentDefinition.component definition) = Some componentName ->
     fifth = Some ("import { " +:+ componentName +:+ " } from '" +:+ path +:+ "'")
     /\ (valueImportNames definition = [] -> fifth = first))
  /\ (fn_name (ComponentDefinition.component definition) = None ->
      fifth = Some ("import { undefined } from '" +:+ path +:+ "'")
      /\ (valueImportNames definition = [] ->
          first = Some ("import {  } from '" +:+ path +:+ "'"))).
Proof.
  cbn zeta. rewrite usageLines_eq. cbn [GeneratedCode.imports generateCode].
  rewrite generateImports_eq. unfold usageHeader, push, importLine.
  cbn [app lookup list_lookup]. split.
  - intros componentName ->. cbn [templateText joinText].
    split; [done | by intros ->].
  - intros ->. cbn [templateText joinText]. split; [done | by intros ->].
Qed.
End MoreUsage.

Section MoreCss.
Context `{JSNumber}.

Lemma addCssProp_single (definition : ComponentDefinition.t)
    (key : string) (value : value) :
  addCssProp definition [] (key, value) = []
  \/ (In key cssNames
      /\ exists line, addCssProp definition [] (key, value) = [line]).
Proof.
  destruct (addCssProp_cases definition [] key value)
    as [Hsilent | (propConfig & line & _ & _ & _ & Hname & Hline)];
    [by left | right; eauto].
Qed.

Lemma cssLines_bounded (definition : ComponentDefinition.t)
    (props : list (string * value)) :
  exists producing,
    sublist producing (keys props)
    /\ incl producing cssNames
    /\ length (flat_map (addCssProp definition []) props) = length producing.
Proof.
  induction props as [|[key value] rest (producing & Hsub & Hincl & Hlen)];
    cbn [flat_map].
  - exists []. split; [constructor|]. split; [intros k [] | done].
  - destruct (addCssProp_single definition key value)
      as [Hsilent | (Hname & line & Hline)].
    + exists producing. rewrite Hsilent. cbn [app].
      split; [by apply sublist_cons | done].
    + exists (key :: producing). rewrite Hline. cbn [app length].
      split; [by apply sublist_skip|]. split; [|by rewrite Hlen].
      intros k [<- | Hin]; [done | by apply Hincl].
Qed.

(** X13: when no key occurs twice in [props], as in a JavaScript object,
    the CSS block holds at most three declarations, whatever the schema
    marks as an animation prop. *)
Theorem css_at_most_three_lines (config : AnimationConfig.t)
    (definition : ComponentDefinition.t) :
  NoDup (keys (AnimationConfig.props config)) ->
  length (cssLines config definition) <= 3.
Proof.
  intros Hnodup. rewrite cssLines_eq.
  destruct (cssLines_bounded definition (AnimationConfig.props config))
    as (producing & Hsub & Hincl & ->).
  change 3%nat with (length cssNames).
  apply NoDup_incl_length; [|done].
  apply NoDup_ListNoDup. by eapply sublist_NoDup.
Qed.

(** X14: the CSS code reads nothing of a [PropConfig] but its
    [defaultValue] and whether [isAnimationProp] is true: two definitions
    that agree on these for every prop give the same CSS code, whatever
    their transforms, labels, types, bounds, names and import paths. *)
Theorem css_ignores_presentation (config : AnimationConfig.t)
    (definition definition' : ComponentDefinition.t) :
  sameTiming definition definition' ->
  GeneratedCode.cssCode (generateCode config definition)
  = GeneratedCode.cssCode (generateCode config definition').
Proof.
  intros Hsame. cbn [GeneratedCode.cssCode generateCode].
  unfold generateCSSCode. rewrite !cssLines_eq.
  assert (Hstep : forall entry,
            addCssProp definition [] entry = addCssProp definition' [] entry).
  { intros [key value]. unfold addCssProp, schemaLookup. specialize (Hsame key).
    destruct (ComponentDefinition.propSchema definition !! key) as [propConfig|],
             (ComponentDefinition.propSchema definition' !! key) as [propConfig'|];
      try done.
    cbn [memberDefaultValue memberIsAnimationProp].
    destruct Hsame as [-> ->]. done. }
  by rewrite (flat_map_ext _ _ Hstep).
Qed.
End MoreCss.

(** ** The panel state and the code drawer *)

Section Studio.
Context `{JSNumber}.
Import AnimationStudio.

Lemma atDefaults_silent (definition : ComponentDefinition.t)
    (props : list (string * value)) :
  atDefaults definition props ->
  flat_map (addConfiguredProp definition []) props = []
  /\ flat_map (addCssProp definition []) props = [].
Proof.
  unfold atDefaults. induction props as [|[key value] rest IH]; [done|].
  intros Hdefaults. cbn [flat_map].
  destruct IH as [-> ->].
  { intros k v pc Hin. apply Hdefaults. by right. }
  rewrite !app_nil_r. unfold addConfiguredProp, addCssProp.
  destruct (schemaLookup definition key) as [member|] eqn:E; [|done].
  rewrite (Hdefaults key value member) by (done || by left).
  by destruct (negb (flag (memberIsAnimationProp member))).
Qed.

(** X15: when the [defaultProps] of a definition hold, for every prop of
    its schema, the [defaultValue] of that prop, and [undefined] for every
    prop that the schema lacks and that is named like a property inherited
    from [Object.prototype], the code drawer of a panel that was just
    created or just reset shows the snippet without any configured
    attribute, and no CSS. *)
Theorem reset_generates_bare_snippet (definition : ComponentDefinition.t)
    (prev : PanelConfig.t) :
  atDefaults definition (ComponentDefinition.defaultProps definition) ->
  let bare := join newline (usageHeader definition ++ usageFooter)%list in
  let afterReset := generatedCode definition (reset (Some definition) prev) in
  let atStart := generatedCode definition (initialConfig (Some definition)) in
  GeneratedCode.usageCode afterReset = bare
  /\ GeneratedCode.cssCode afterReset = None
  /\ GeneratedCode.usageCode atStart = bare
  /\ GeneratedCode.cssCode atStart = None.
Proof.
  intros [Husage Hcss]%atDefaults_silent. cbn zeta.
  unfold generatedCode, generateCode,
    generateUsageCode, generateCSSCode.
  cbn [GeneratedCode.usageCode GeneratedCode.cssCode].
  rewrite !usageLines_eq, !cssLines_eq.
  cbn [animationConfigOf reset initialConfig AnimationConfig.props PanelConfig.props].
  by rewrite Husage, Hcss.
Qed.

Lemma get_in_place {V} (before after : JSMap.t V) (k : string) (v : V) :
  k ∉ keys before -> JSMap.get (before ++ (k, v) :: after)%list k = Some v.
Proof.
  induction before as [|[k' v'] rest IH]; cbn; intros Hnotin.
  - by rewrite String.eqb_refl.
  - apply not_elem_of_cons in Hnotin as [Hne Hrest].
    destruct (String.eqb k' k) eqn:E; [|by apply IH].
    apply String.eqb_eq in E. congruence.
Qed.

Lemma set_present {V} (o : list (string * V)) (key : string) (v : V) :
  JSMap.has o key = true -> JSObject.set o key v = JSMap.set o key v.
Proof. intros Hhas. unfold JSObject.set. by rewrite Hhas. Qed.

Lemma set_no_index {V} (o : list (string * V)) (key : string) (v : V) :
  JSObject.arrayIndex key = None -> JSObject.set o key v = JSMap.set o key v.
Proof.
  intros Hkey. unfold JSObject.set. rewrite Hkey.
  destruct (JSMap.has o key) eqn:Hhas; [done | by rewrite set_fresh].
Qed.

Lemma updateProp_eq (key : string) (value : value) (prev : PanelConfig.t) :
  JSObject.arrayIndex key = None ->
  updateProp key value prev
  = {| PanelConfig.props := JSMap.set (PanelConfig.props prev) key value;
       PanelConfig.isActive := PanelConfig.isActive prev |}.
Proof. intros Hkey. unfold updateProp. by rewrite set_no_index. Qed.

Lemma attributeLines_eq (definition : ComponentDefinition.t)
    (entries : list (string * value)) :
  attributeLines definition entries
  = flat_map (addConfiguredProp definition []) entries.
Proof. unfold attributeLines. by rewrite fold_addConfiguredProp. Qed.

(** The usage lines around the attribute of a prop that is in [props]. *)
Lemma usageLines_in_place (definition : ComponentDefinition.t)
    (config : PanelConfig.t) (key : string) (old value : value)
    (before after : list (string * JS.value)) :
  PanelConfig.props config = (before ++ (key, old) :: after)%list ->
  key ∉ keys before ->
  usageLines (animationConfigOf definition config) definition
  = (usageHeader definition
       ++ attributeLines definition before
       ++ addConfiguredProp definition [] (key, old)
       ++ attributeLines definition after ++ usageFooter)%list
  /\ usageLines (animationConfigOf definition (updateProp key value config))
       definition
     = (usageHeader definition
          ++ attributeLines definition before
          ++ addConfiguredProp definition [] (key, value)
          ++ attributeLines definition after ++ usageFooter)%list.
Proof.
  intros Hprops Hfirst. rewrite !usageLines_eq, !attributeLines_eq.
  cbn [animationConfigOf updateProp AnimationConfig.props PanelConfig.props].
  rewrite set_present.
  - rewrite Hprops, set_in_place by done.
    rewrite !flat_map_app. cbn [flat_map]. by rewrite <- !app_assoc.
  - unfold JSMap.has. by rewrite Hprops, get_in_place.
Qed.

(** X16: an edit through [updateProp] changes the usage lines only where
    the edited prop stands. For a prop that is in [props], the attribute
    lines of the entries before it and of the entries after it stay where
    they are, and the attribute of the new value stands between them, where
    that of the old value stood. For a prop that is not in [props] yet and
    whose name is not an array index, the attribute comes after those of
    all the entries, just before the closing lines. For a new prop whose
    name is an array index, when no name of [props] is one, the attribute
    comes first, right after the opening lines. *)
Theorem edit_changes_one_attribute (definition : ComponentDefinition.t)
    (config : PanelConfig.t) (key : string) (value : JS.value) :
  let lines c := usageLines (animationConfigOf definition c) definition in
  let attribute v := addConfiguredProp definition [] (key, v) in
  (forall before old after,
     PanelConfig.props config = (before ++ (key, old) :: after)%list ->
     key ∉ keys before ->
     lines config
     = (usageHeader definition
          ++ attributeLines definition before ++ attribute old
          ++ attributeLines definition after ++ usageFooter)%list
     /\ lines (updateProp key value config)
        = (usageHeader definition
             ++ attributeLines definition before ++ attribute value
             ++ attributeLines definition after ++ usageFooter)%list)
  /\ (key ∉ keys (PanelConfig.props config) ->
      lines config
      = (usageHeader definition
           ++ attributeLines definition (PanelConfig.props config)
           ++ usageFooter)%list
      /\ (JSObject.arrayIndex key = None ->
          lines (updateProp key value config)
          = (usageHeader definition
               ++ attributeLines definition (PanelConfig.props config)
               ++ attribute value ++ usageFooter)%list)
      /\ (is_Some (JSObject.arrayIndex key) ->
          (forall k, k ∈ keys (PanelConfig.props config) ->
                     JSObject.arrayIndex k = None) ->
          lines (updateProp key value config)
          = (usageHeader definition
               ++ attribute value
               ++ attributeLines definition (PanelConfig.props config)
               ++ usageFooter)%list)).
Proof.
  cbn zeta. split.
  - intros before old after. apply usageLines_in_place.
  - intros Hnew.
    assert (Hhas : JSMap.has (PanelConfig.props config) key = false).
    { destruct (JSMap.has (PanelConfig.props config) key) eqn:E; [|done].
      apply has_elem_of_keys in E. done. }
    rewrite !usageLines_eq, !attributeLines_eq.
    cbn [animationConfigOf updateProp AnimationConfig.props PanelConfig.props].
    split; [done|]. split.
    + intros Hkey. rewrite set_no_index, set_fresh by done.
      rewrite flat_map_app. cbn [flat_map]. by rewrite app_nil_r, <- !app_assoc.
    + intros [i Hkey] Hothers. unfold JSObject.set. rewrite Hhas, Hkey.
      destruct (PanelConfig.props config) as [|[k v] rest]; cbn [JSObject.insertIndex].
      * cbn [flat_map]. by rewrite !app_nil_r.
      * rewrite (Hothers k) by (cbn; left). cbn [flat_map].
        by rewrite <- !app_assoc.
Qed.

Lemma property_set_eq (props : list (string * value)) (key : string) (v : value) :
  property (JSMap.set props key v) key = v.
Proof. unfold property. by rewrite get_set_eq. Qed.

Lemma property_set_ne (props : list (string * value)) (key key' : string) (v : value) :
  key <> key' -> property (JSMap.set props key v) key' = property props key'.
Proof. intros Hne. unfold property. by rewrite get_set_ne. Qed.

(** X17: for a definition in [button] state mode, on a panel whose props
    hold [loading: false] and [success: false], three calls of
    [handleToggle] go through loading, then success, and bring the panel
    back to the configuration it started from. *)
Theorem button_cycle_of_three (definition : ComponentDefinition.t)
    (config : PanelConfig.t) :
  ComponentDefinition.stateMode definition = Some button ->
  JSMap.get (PanelConfig.props config) "loading" = Some (VBoolean false) ->
  JSMap.get (PanelConfig.props config) "success" = Some (VBoolean false) ->
  let click := handleToggle (Some definition) in
  let flags c := (property (PanelConfig.props c) "loading",
                  property (PanelConfig.props c) "success") in
  flags (click config) = (VBoolean true, VBoolean false)
  /\ flags (click (click config)) = (VBoolean false, VBoolean true)
  /\ click (click (click config)) = config.
Proof.
  intros Hmode Hloading Hsuccess. cbn zeta.
  destruct config as [props active]. cbn [PanelConfig.props] in *.
  assert (Hfirst : handleToggle (Some definition)
                     {| PanelConfig.props := props; PanelConfig.isActive := active |}
                   = {| PanelConfig.props := JSMap.set props "loading" (VBoolean true);
                        PanelConfig.isActive := active |}).
  { unfold handleToggle, stateModeOf, property. cbn [PanelConfig.props].
    rewrite Hmode, Hloading, Hsuccess. cbn [toBoolean negb andb].
    by rewrite updateProp_eq. }
  assert (Hsecond : handleToggle (Some definition)
                      {| PanelConfig.props := JSMap.set props "loading" (VBoolean true);
                         PanelConfig.isActive := active |}
                    = {| PanelConfig.props := JSMap.set props "success" (VBoolean true);
                         PanelConfig.isActive := active |}).
  { unfold handleToggle, stateModeOf. cbn [PanelConfig.props].
    rewrite Hmode, property_set_eq. cbn [toBoolean negb andb].
    rewrite !updateProp_eq by done. cbn [PanelConfig.props PanelConfig.isActive].
    by rewrite set_set, (set_same props "loading" _ Hloading). }
  assert (Hthird : handleToggle (Some definition)
                     {| PanelConfig.props := JSMap.set props "success" (VBoolean true);
                        PanelConfig.isActive := active |}
                   = {| PanelConfig.props := props; PanelConfig.isActive := active |}).
  { unfold handleToggle, stateModeOf. cbn [PanelConfig.props].
    rewrite Hmode, property_set_eq, property_set_ne by done.
    unfold property at 1 2. rewrite Hloading. cbn [toBoolean negb andb].
    rewrite !updateProp_eq by done. cbn [PanelConfig.props PanelConfig.isActive].
    by rewrite set_set, (set_same props "success" _ Hsuccess). }
  rewrite Hfirst, Hsecond, Hthird. cbn [PanelConfig.props].
  rewrite !property_set_eq, !property_set_ne by done.
  unfold property. by rewrite Hloading, Hsuccess.
Qed.

(** X18: for a definition in [button] state mode, whatever the panel
    holds, after a call of [handleToggle] the props [loading] and [success]
    are never both truthy. *)
Theorem button_never_loading_and_success (definition : ComponentDefinition.t)
    (config : PanelConfig.t) :
  ComponentDefinition.stateMode definition = Some button ->
  let props := PanelConfig.props (handleToggle (Some definition) config) in
  toBoolean (property props "loading") && toBoolean (property props "success")
  = false.
Proof.
  intros Hmode. cbn zeta. unfold handleToggle, stateModeOf. rewrite Hmode.
  destruct (toBoolean (property (PanelConfig.props config) "loading")) eqn:Hloading,
           (toBoolean (property (PanelConfig.props config) "success")) eqn:Hsuccess;
    cbn [negb andb]; rewrite !updateProp_eq by done; cbn [PanelConfig.props];
    rewrite ?property_set_eq, ?property_set_ne, ?property_set_eq by done;
    cbn [toBoolean]; rewrite ?Hloading, ?Hsuccess; done.
Qed.

(** X19: what a click on the preview does to the code drawer. When the
    state mode is [toggle], also by default, [handleToggle] flips
    [isActive] and the generated code stays the same. When it is [button]
    and the panel is at rest ([loading: false], [success] falsy), for a
    schema whose [loading] prop has no transform and defaults to [false],
    the usage code gains the line [loading=true], between the attribute
    lines of the props before [loading] and those of the props after it,
    and nothing else changes. *)
Theorem preview_click_and_code (definition : ComponentDefinition.t)
    (config : PanelConfig.t) :
  let click := handleToggle (Some definition) in
  let lines c := usageLines (animationConfigOf definition c) definition in
  (stateModeOf (Some definition) = toggle ->
   PanelConfig.isActive (click config) = negb (PanelConfig.isActive config)
   /\ generatedCode definition (click config) = generatedCode definition config)
  /\ (forall before after propConfig,
        ComponentDefinition.stateMode definition = Some button ->
        PanelConfig.props config
        = (before ++ ("loading", VBoolean false) :: after)%list ->
        "loading" ∉ keys before ->
        toBoolean (property (PanelConfig.props config) "success") = false ->
        ComponentDefinition.propSchema definition !! "loading" = Some propConfig ->
        PropConfig.transform propConfig = None ->
        PropConfig.defaultValue propConfig = VBoolean false ->
        lines config
        = (usageHeader definition
             ++ attributeLines definition before
             ++ attributeLines definition after ++ usageFooter)%list
        /\ lines (click config)
           = (usageHeader definition
                ++ attributeLines definition before
                ++ ["      loading=true"]
                ++ attributeLines definition after ++ usageFooter)%list).
Proof.
  cbn zeta. split.
  - intros Hmode. unfold handleToggle. rewrite Hmode. by destruct config.
  - intros before after propConfig Hmode Hprops Hfirst Hsuccess Hschema
      Htransform Hdefault.
    assert (Hclick : handleToggle (Some definition) config
                     = updateProp "loading" (VBoolean true) config).
    { unfold handleToggle, stateModeOf. rewrite Hmode, Hsuccess.
      unfold property. by rewrite Hprops, get_in_place. }
    destruct (usageLines_in_place definition config "loading" (VBoolean false)
                (VBoolean true) before after Hprops Hfirst)
      as (Hbefore & Hafter).
    assert (Hold : addConfiguredProp definition [] ("loading", VBoolean false) = []).
    { unfold addConfiguredProp. rewrite (schemaLookup_own _ _ _ Hschema).
      cbn [memberDefaultValue]. by rewrite Hdefault. }
    assert (Hnew : addConfiguredProp definition [] ("loading", VBoolean true)
                   = ["      loading=true"]).
    { unfold addConfiguredProp. rewrite (schemaLookup_own _ _ _ Hschema).
      cbn [memberDefaultValue memberTransform]. by rewrite Htransform, Hdefault. }
    by rewrite Hclick, Hbefore, Hafter, Hold, Hnew.
Qed.
End Studio.

(** ** The names derived by the scaffold *)

Section ScaffoldNames.
Import Scaffold.

Lemma hyphenate_ind (P : string -> Prop) :
  P EmptyString ->
  (forall c, P (String c EmptyString)) ->
  (forall c d rest,
     isLowerLetter c && isUpperLetter d = true ->
     P rest -> P (String c (String d rest))) ->
  (forall c d rest,
     isLowerLetter c && isUpperLetter d = false ->
     P (String d rest) -> P (String c (String d rest))) ->
  forall s, P s.
Proof.
  intros Hempty Hone Hmatch Hstep s.
  enough (Hboth : P s /\ forall c, P (String c s)) by apply Hboth.
  induction s as [|d rest [IHrest IHcons]]; [by split|].
  split; [apply IHcons|]. intros c.
  destruct (isLowerLetter c && isUpperLetter d) eqn:E; auto.
Qed.

Lemma lowerLetter_not_upper (c : ascii) : isUpperLetter (lowerLetter c) = false.
Proof. destruct c as [[] [] [] [] [] [] [] []]; reflexivity. Qed.

Lemma lowerLetter_hyphen (c : ascii) :
  Ascii.eqb "-" (lowerLetter c) = Ascii.eqb "-" c.
Proof. destruct c as [[] [] [] [] [] [] [] []]; reflexivity. Qed.

Lemma upper_not_lower (c : ascii) : isUpperLetter c = true -> isLowerLetter c = false.
Proof. destruct c as [[] [] [] [] [] [] [] []]; vm_compute; congruence. Qed.

Lemma toLowerCase_noUpper (s : string) : noUpperLetter (toLowerCase s) = true.
Proof.
  induction s as [|c rest IH]; [done|].
  cbn. by rewrite lowerLetter_not_upper, IH.
Qed.

Lemma noUpper_hyphenate (s : string) : noUpperLetter s = true -> hyphenate s = s.
Proof.
  induction s as [|c rest IH]; [done|].
  cbn [noUpperLetter]. intros [Hc Hrest]%andb_prop.
  destruct rest as [|d rest']; [done|].
  cbn [hyphenate]. pose proof Hrest as Hall. cbn [noUpperLetter] in Hrest.
  apply andb_prop in Hrest as [Hd _]. apply negb_true_iff in Hd.
  rewrite Hd, andb_false_r. f_equal. by apply IH.
Qed.

Lemma noUpper_toLowerCase (s : string) : noUpperLetter s = true -> toLowerCase s = s.
Proof.
  induction s as [|c rest IH]; [done|].
  cbn. intros [Hc Hrest]%andb_prop. apply negb_true_iff in Hc.
  unfold lowerLetter. by rewrite Hc, IH.
Qed.

(** X20: the kebab-case name that the scaffold derives from an ASCII
    component name holds no upper-case letter, and deriving it again from
    itself changes nothing. *)
Theorem kebabCase_lower_and_stable (componentName : string) :
  isAscii componentName = true ->
  noUpperLetter (kebabCase componentName) = true
  /\ kebabCase (kebabCase componentName) = kebabCase componentName.
Proof.
  intros _. unfold kebabCase.
  pose proof (toLowerCase_noUpper (hyphenate componentName)) as Hlower.
  split; [exact Hlower|].
  by rewrite (noUpper_hyphenate _ Hlower), (noUpper_toLowerCase _ Hlower).
Qed.

Lemma boundaries_skip (d : ascii) (rest : string) :
  isLowerLetter d = false -> boundaries (String d rest) = boundaries rest.
Proof. intros Hd. destruct rest as [|e rest']; cbn; [done | by rewrite Hd]. Qed.

Lemma length_toLowerCase (s : string) :
  String.length (toLowerCase s) = String.length s.
Proof. induction s as [|c rest IH]; cbn; [done | by rewrite IH]. Qed.

Lemma occurrences_toLowerCase (s : string) :
  occurrences "-" (toLowerCase s) = occurrences "-" s.
Proof.
  induction s as [|c rest IH]; [done|].
  cbn [toLowerCase occurrences]. by rewrite lowerLetter_hyphen, IH.
Qed.

Lemma occurrences_app (c : ascii) (s t : string) :
  occurrences c (s +:+ t) = (occurrences c s + occurrences c t)%nat.
Proof.
  induction s as [|d rest IH]; [done|].
  change (String d rest +:+ t) with (String d (rest +:+ t)).
  cbn [occurrences]. rewrite IH. lia.
Qed.

Lemma boundaries_pair (c d : ascii) (rest : string) :
  boundaries (String c (String d rest))
  = ((if isLowerLetter c && isUpperLetter d then 1 else 0)
     + boundaries (String d rest))%nat.
Proof. reflexivity. Qed.

Lemma hyphenate_pair (c d : ascii) (rest : string) :
  hyphenate (String c (String d rest))
  = if isLowerLetter c && isUpperLetter d
    then String c (String "-" (String d (hyphenate rest)))
    else String c (hyphenate (String d rest)).
Proof. reflexivity. Qed.

Lemma hyphenate_counts (s : string) :
  String.length (hyphenate s) = (String.length s + boundaries s)%nat
  /\ occurrences "-" (hyphenate s) = (occurrences "-" s + boundaries s)%nat.
Proof.
  induction s as [| c | c d rest Hmatch [IHlen IHocc] | c d rest Hstep [IHlen IHocc]]
    using hyphenate_ind.
  - done.
  - cbn. lia.
  - rewrite boundaries_pair, hyphenate_pair, Hmatch.
    apply andb_prop in Hmatch as [Hc Hd].
    rewrite (boundaries_skip d rest (upper_not_lower d Hd)).
    assert (Hhyphen : Ascii.eqb "-" d = false).
    { destruct (Ascii.eqb "-" d) eqn:E; [|done].
      apply Ascii.eqb_eq in E. subst d. discriminate. }
    cbn [String.length occurrences]. rewrite IHlen, IHocc, Hhyphen.
    rewrite Ascii.eqb_refl. lia.
  - rewrite boundaries_pair, hyphenate_pair, Hstep.
    change (String.length (String c (hyphenate (String d rest))))
      with (S (String.length (hyphenate (String d rest)))).
    change (occurrences "-" (String c (hyphenate (String d rest))))
      with ((if Ascii.eqb "-" c then 1 else 0)
            + occurrences "-" (hyphenate (String d rest)))%nat.
    rewrite IHlen, IHocc. cbn [String.length occurrences]. lia.
Qed.

Lemma withHyphens_cons (previous : option ascii) (c : ascii) (rest : string) :
  withHyphens previous (String c rest)
  = if match previous with
       | Some p => isLowerLetter p
       | None => false
       end && isUpperLetter c
    then String "-" (String (lowerLetter c) (withHyphens (Some c) rest))
    else String (lowerLetter c) (withHyphens (Some c) rest).
Proof. reflexivity. Qed.

Lemma withHyphens_after (p : ascii) (s : string) :
  isLowerLetter p = false -> withHyphens (Some p) s = withHyphens None s.
Proof. intros Hp. destruct s as [|c rest]; [done|]. by rewrite !withHyphens_cons, Hp. Qed.

(** The two passes of [kebabCase], replace then lower, are one pass over
    the name. *)
Lemma kebabCase_one_pass (s : string) :
  toLowerCase (hyphenate s) = withHyphens None s.
Proof.
  induction s as [| c | c d rest Hmatch IH | c d rest Hstep IH] using hyphenate_ind.
  - done.
  - done.
  - rewrite hyphenate_pair, Hmatch, !withHyphens_cons. cbn [andb].
    rewrite Hmatch.
    apply andb_prop in Hmatch as [_ Hd].
    rewrite (withHyphens_after d rest (upper_not_lower d Hd)), <- IH.
    reflexivity.
  - rewrite hyphenate_pair, Hstep, (withHyphens_cons None c). cbn [andb].
    change (toLowerCase (String c (hyphenate (String d rest))))
      with (String (lowerLetter c) (toLowerCase (hyphenate (String d rest)))).
    rewrite IH. f_equal. by rewrite !withHyphens_cons, Hstep.
Qed.

(** X21: the kebab-case name derived from an ASCII component name is the
    name in lower case with a hyphen put between every lower-case letter
    and the upper-case letter that follows it, and nowhere else; so it is
    longer than the name by the number of such places and holds as many
    hyphens more, and for a name with such a place, as [MyButton], the
    constant that the definition template exports,
    [`${kebabCase}Definition`], has a hyphen in it. *)
Theorem kebabCase_hyphens (componentName : string) :
  isAscii componentName = true ->
  kebabCase componentName = withHyphens None componentName
  /\ String.length (kebabCase componentName)
     = (String.length componentName + boundaries componentName)%nat
  /\ occurrences "-" (kebabCase componentName)
     = (occurrences "-" componentName + boundaries componentName)%nat
  /\ (0 < boundaries componentName ->
      0 < occurrences "-" (definitionConstant componentName)).
Proof.
  intros _. split; [apply kebabCase_one_pass|].
  unfold definitionConstant, kebabCase.
  rewrite occurrences_app, length_toLowerCase, occurrences_toLowerCase.
  destruct (hyphenate_counts componentName) as [-> ->].
  repeat split. lia.
Qed.
End ScaffoldNames.

(** ** The further properties on the shipped definitions *)

Section MoreEvaluation.
Import Definitions Examples ComponentRegistry AnimationStudio Scaffold.

Lemma initialized_reachable : reachable initialized.
Proof.
  exact (reachable_register (ComponentDefinition.asReceived liquidButtonDefinition) _
           (reachable_register
              (ComponentDefinition.asReceived liquidCheckboxDefinition) _
              (reachable_register
                 (ComponentDefinition.asReceived liquidToggleDefinition) []
                 reachable_empty))).
Defined.

Lemma registry_ids_unique_witness :
  reachable initialized
  /\ (exists all,
        getAllComponents initialized = (Eff.Returned all, initialized)
        /\ NoDup (map ComponentDefinition.id all))
  /\ (forall id definition,
        getComponent id initialized = (Eff.Returned (Some definition), initialized) ->
        ComponentDefinition.id definition = id).
Proof.
  split; [exact initialized_reachable|].
  exact (registry_ids_unique initialized initialized_reachable).
Defined.

Lemma receivedPanel_component :
  is_Some (ComponentDefinition.component receivedPanel).
Proof. eexists. reflexivity. Defined.

Lemma receivedPanel_propSchema :
  is_Some (ComponentDefinition.propSchema receivedPanel).
Proof. eexists. reflexivity. Defined.

Lemma receivedTemplate_component :
  is_Some (ComponentDefinition.component receivedTemplate).
Proof. eexists. reflexivity. Defined.

Lemma receivedTemplate_propSchema :
  is_Some (ComponentDefinition.propSchema receivedTemplate).
Proof. eexists. reflexivity. Defined.

Lemma receivedButton_component :
  is_Some (ComponentDefinition.component receivedButton).
Proof. eexists. reflexivity. Defined.

Lemma receivedButton_propSchema :
  is_Some (ComponentDefinition.propSchema receivedButton).
Proof. eexists. reflexivity. Defined.

Lemma withoutPropSchema_component :
  is_Some (ComponentDefinition.component withoutPropSchema).
Proof. eexists. reflexivity. Defined.

Lemma fresh_registration_found_witness :
  (JSMap.has initialized (ComponentDefinition.id receivedPanel) = false
   /\ is_Some (ComponentDefinition.component receivedPanel)
   /\ is_Some (ComponentDefinition.propSchema receivedPanel))
  /\ (JSMap.has initialized (ComponentDefinition.id withoutComponent) = false
      /\ ComponentDefinition.component withoutComponent = None)
  /\ (JSMap.has initialized (ComponentDefinition.id withoutPropSchema) = false
      /\ is_Some (ComponentDefinition.component withoutPropSchema)
      /\ ComponentDefinition.propSchema withoutPropSchema = None)
  /\ (exists registered,
        registerComponent receivedPanel initialized = (Eff.Returned tt, registered)
        /\ getComponent (ComponentDefinition.id receivedPanel) registered
           = (Eff.Returned (Some receivedPanel), registered)
        /\ (forall other,
              other <> ComponentDefinition.id receivedPanel ->
              fst (getComponent other registered)
              = fst (getComponent other initialized))
        /\ getAllComponents registered
           = (Eff.Returned (JSMap.values initialized ++ [receivedPanel])%list,
              registered))
  /\ registerComponent withoutComponent initialized
     = (Eff.Thrown (missingComponent "ghost"), initialized)
  /\ registerComponent withoutPropSchema initialized
     = (Eff.Thrown (missingPropSchema "ghost"), initialized).
Proof.
  split; [split; [reflexivity|];
          split; [exact receivedPanel_component | exact receivedPanel_propSchema]|].
  split; [split; reflexivity|].
  split; [split; [reflexivity|];
          split; [exact withoutPropSchema_component | reflexivity]|].
  split; [|split].
  - exact (proj2 (proj2 (fresh_registration_found initialized receivedPanel eq_refl))
             receivedPanel_component receivedPanel_propSchema).
  - exact (proj1 (fresh_registration_found initialized withoutComponent eq_refl)
             eq_refl).
  - exact (proj1 (proj2 (fresh_registration_found initialized withoutPropSchema
                           eq_refl))
             withoutPropSchema_component eq_refl).
Defined.

Lemma unregister_removes_witness :
  reachable initialized
  /\ exists remaining,
       unregisterComponent "liquid-checkbox" initialized
       = (Eff.Returned (JSMap.has initialized "liquid-checkbox"), remaining)
       /\ hasComponent "liquid-checkbox" remaining = (Eff.Returned false, remaining)
       /\ (forall other,
             other <> "liquid-checkbox" ->
             fst (getComponent other remaining)
             = fst (getComponent other initialized))
       /\ (JSMap.has initialized "liquid-checkbox" = false ->
           remaining = initialized).
Proof.
  split; [exact initialized_reachable|].
  exact (unregister_removes initialized "liquid-checkbox" initialized_reachable).
Defined.

Lemma unregister_then_register_witness :
  (reachable initialized
   /\ is_Some (ComponentDefinition.component receivedTemplate)
   /\ is_Some (ComponentDefinition.propSchema receivedTemplate))
  /\ (let* _ := unregisterComponent "liquid-toggle" in
      registerComponent receivedTemplate)%eff initialized
     = (Eff.Returned tt,
        [("liquid-checkbox", ComponentDefinition.asReceived liquidCheckboxDefinition);
         ("liquid-button", receivedButton);
         ("liquid-toggle", receivedTemplate)]).
Proof.
  split; [split; [exact initialized_reachable|];
          split; [exact receivedTemplate_component
                 | exact receivedTemplate_propSchema]|].
  exact (proj1 (unregister_then_register initialized receivedTemplate
                  initialized_reachable receivedTemplate_component
                  receivedTemplate_propSchema)).
Defined.

Lemma registration_extends_filters_witness :
  (JSMap.has checkboxOnly (ComponentDefinition.id receivedButton) = false
   /\ is_Some (ComponentDefinition.component receivedButton)
   /\ is_Some (ComponentDefinition.propSchema receivedButton))
  /\ exists registered inCategory tagged,
       registerComponent receivedButton checkboxOnly = (Eff.Returned tt, registered)
       /\ getComponentsByCategory "forms" checkboxOnly
          = (Eff.Returned inCategory, checkboxOnly)
       /\ getComponentsByTag "button" checkboxOnly = (Eff.Returned tagged, checkboxOnly)
       /\ getComponentsByCategory "forms" registered
          = (Eff.Returned
               (inCategory
                  ++ if decide (ComponentDefinition.category receivedButton
                                = Some "forms")
                     then [receivedButton] else [])%list,
             registered)
       /\ getComponentsByTag "button" registered
          = (Eff.Returned
               (tagged
                  ++ match ComponentDefinition.tags receivedButton with
                     | Some tags =>
                         if decide ("button" ∈ tags) then [receivedButton] else []
                     | None => []
                     end)%list,
             registered).
Proof.
  split; [split; [reflexivity|];
          split; [exact receivedButton_component | exact receivedButton_propSchema]|].
  destruct (registration_extends_filters checkboxOnly receivedButton
              "forms" "button" eq_refl receivedButton_component
              receivedButton_propSchema)
    as (registered & inCategory & tagged & Hregistered & Hcategory & Htag
        & _ & _ & _ & _ & Hcategory' & Htag').
  exists registered, inCategory, tagged. repeat split; assumption.
Defined.

(** The button joins the checkbox under [forms] and is alone under the
    tag [button]; neither is under [feedback]. *)
Example filters_after_registration :
  let registered := snd (registerComponent receivedButton checkboxOnly) in
  fst (getComponentsByCategory "forms" registered)
  = Eff.Returned [ComponentDefinition.asReceived liquidCheckboxDefinition;
                  receivedButton]
  /\ fst (getComponentsByTag "button" registered) = Eff.Returned [receivedButton]
  /\ fst (getComponentsByCategory "feedback" registered) = Eff.Returned [].
Proof. repeat split. Qed.

Lemma initializeComponents_only_once_witness :
  initializeComponents [] = (Eff.Returned tt, initialized)
  /\ initializeComponents initialized
     = (Eff.Thrown (alreadyRegistered "liquid-toggle"), initialized).
Proof.
  split; [reflexivity|].
  exact (initializeComponents_only_once [] initialized eq_refl).
Defined.

Lemma initializeComponents_partial_witness :
  (JSMap.has checkboxOnly "liquid-toggle" = false
   /\ JSMap.has checkboxOnly "liquid-checkbox" = true)
  /\ initializeComponents checkboxOnly
     = (Eff.Thrown (alreadyRegistered "liquid-checkbox"),
        (checkboxOnly ++ [("liquid-toggle", receivedToggle)])%list).
Proof.
  split; [split; reflexivity|].
  exact (initializeComponents_partial checkboxOnly eq_refl eq_refl).
Defined.
Lemma plain_prop_attribute_witness :
  (ComponentDefinition.propSchema liquidButtonDefinition !! "primaryColor"
     = Some buttonPrimaryColorConfig
   /\ PropConfig.transform buttonPrimaryColorConfig = None
   /\ strictEq (VString "") (PropConfig.defaultValue buttonPrimaryColorConfig) = false)
  /\ (ComponentDefinition.propSchema liquidToggleDefinition !! "duration"
        = Some durationConfig
      /\ PropConfig.transform durationConfig = None
      /\ strictEq (num 800) (PropConfig.defaultValue durationConfig) = false)
  /\ addConfiguredProp liquidButtonDefinition [] ("primaryColor", VString "")
     = ([] ++ ["      " +:+ "primaryColor" +:+ "=" +:+ dquote +:+ "" +:+ dquote])%list
  /\ addConfiguredProp liquidToggleDefinition [] ("duration", num 800)
     = ([] ++ ["      " +:+ "duration" +:+ "={" +:+ "800" +:+ "}"])%list.
Proof.
  split; [repeat split|]. split; [repeat split|]. split.
  - exact (proj1 (plain_prop_attribute liquidButtonDefinition "primaryColor"
                    buttonPrimaryColorConfig [] eq_refl eq_refl) "" eq_refl).
  - exact (proj2 (plain_prop_attribute liquidToggleDefinition "duration"
                    durationConfig [] eq_refl eq_refl) (Some 800%Z) eq_refl).
Defined.

Lemma transformed_prop_attribute_witness :
  (ComponentDefinition.propSchema liquidToggleDefinition !! "timingFunction"
     = Some timingFunctionConfig
   /\ PropConfig.transform timingFunctionConfig = Some quoted
   /\ strictEq (VString "ease") (PropConfig.defaultValue timingFunctionConfig) = false
   /\ quoted (VString "ease") <> "undefined")
  /\ addConfiguredProp liquidToggleDefinition [] ("timingFunction", VString "ease")
     = ([] ++ ["      " +:+ "timingFunction" +:+ "=" +:+ quoted (VString "ease")])%list.
Proof.
  split; [repeat split; discriminate|].
  apply (transformed_prop_attribute liquidToggleDefinition "timingFunction"
           (VString "ease") timingFunctionConfig quoted [] eq_refl eq_refl eq_refl).
  discriminate.
Defined.

Lemma usage_import_line_witness :
  (fn_name (ComponentDefinition.component liquidToggleDefinition) = Some "LiquidToggle"
   /\ valueImportNames liquidToggleDefinition = []
   /\ fn_name (ComponentDefinition.component forwardRefToggle) = None
   /\ valueImportNames forwardRefToggle = [])
  /\ usageLines editedToggle liquidToggleDefinition !! 4%nat
     = Some ("import { " +:+ "LiquidToggle" +:+ " } from '"
               +:+ ComponentDefinition.importPath liquidToggleDefinition +:+ "'")
  /\ usageLines editedToggle liquidToggleDefinition !! 4%nat
     = GeneratedCode.imports (generateCode editedToggle liquidToggleDefinition) !! 0%nat
  /\ usageLines editedToggle forwardRefToggle !! 4%nat
     = Some ("import { undefined } from '"
               +:+ ComponentDefinition.importPath forwardRefToggle +:+ "'")
  /\ GeneratedCode.imports (generateCode editedToggle forwardRefToggle) !! 0%nat
     = Some ("import {  } from '"
               +:+ ComponentDefinition.importPath forwardRefToggle +:+ "'").
Proof.
  split; [repeat split|].
  destruct (proj1 (usage_import_line editedToggle liquidToggleDefinition)
              "LiquidToggle" eq_refl) as [Hline Hfirst].
  destruct (proj2 (usage_import_line editedToggle forwardRefToggle) eq_refl)
    as [Hline' Hfirst'].
  split; [exact Hline|]. split; [exact (Hfirst eq_refl)|].
  split; [exact Hline' | exact (Hfirst' eq_refl)].
Defined.

Lemma editedToggle_keys_distinct : NoDup (keys (AnimationConfig.props editedToggle)).
Proof. apply (bool_decide_unpack _). vm_compute. exact I. Defined.

Lemma css_at_most_three_lines_witness :
  NoDup (keys (AnimationConfig.props editedToggle))
  /\ length (cssLines editedToggle liquidToggleDefinition) <= 3.
Proof.
  split; [exact editedToggle_keys_distinct|].
  exact (css_at_most_three_lines editedToggle liquidToggleDefinition
           editedToggle_keys_distinct).
Defined.

Lemma bareToggle_sameTiming : sameTiming liquidToggleDefinition bareToggle.
Proof.
  intros key. cbn [ComponentDefinition.propSchema liquidToggleDefinition bareToggle].
  rewrite lookup_fmap.
  destruct (toggleSchema 600 !! key) as [propConfig|]; cbn; [split; reflexivity | exact I].
Defined.

Lemma css_ignores_presentation_witness :
  sameTiming liquidToggleDefinition bareToggle
  /\ GeneratedCode.cssCode (generateCode editedToggle liquidToggleDefinition)
     = GeneratedCode.cssCode (generateCode editedToggle bareToggle).
Proof.
  split; [exact bareToggle_sameTiming|].
  exact (css_ignores_presentation editedToggle liquidToggleDefinition bareToggle
           bareToggle_sameTiming).
Defined.

Lemma liquidToggle_atDefaults :
  atDefaults liquidToggleDefinition
    (ComponentDefinition.defaultProps liquidToggleDefinition).
Proof.
  intros key value member Hin.
  cbn in Hin.
  repeat (destruct Hin as [[= <- <-] | Hin];
          [intros Hlookup; vm_compute in Hlookup;
           injection Hlookup as <-; reflexivity|]).
  destruct Hin.
Defined.

Lemma reset_generates_bare_snippet_witness :
  atDefaults liquidToggleDefinition
    (ComponentDefinition.defaultProps liquidToggleDefinition)
  /\ GeneratedCode.usageCode
       (generatedCode liquidToggleDefinition
          (reset (Some liquidToggleDefinition) editedPanel))
     = join newline (usageHeader liquidToggleDefinition ++ usageFooter)%list
  /\ GeneratedCode.cssCode
       (generatedCode liquidToggleDefinition
          (reset (Some liquidToggleDefinition) editedPanel))
     = None.
Proof.
  split; [exact liquidToggle_atDefaults|].
  destruct (reset_generates_bare_snippet liquidToggleDefinition editedPanel
              liquidToggle_atDefaults) as (Husage & Hcss & _).
  split; [exact Husage | exact Hcss].
Defined.

Lemma edit_changes_one_attribute_witness :
  (PanelConfig.props editedPanel
     = (take 1 (PanelConfig.props editedPanel)
          ++ ("duration", num 800) :: drop 2 (PanelConfig.props editedPanel))%list
   /\ ("duration" ∉ keys (take 1 (PanelConfig.props editedPanel)))
   /\ ("0" ∉ keys (PanelConfig.props editedPanel))
   /\ is_Some (JSObject.arrayIndex "0")
   /\ (forall k, k ∈ keys (PanelConfig.props editedPanel) ->
                 JSObject.arrayIndex k = None))
  /\ usageLines
       (animationConfigOf liquidToggleDefinition
          (updateProp "duration" (num 1200) editedPanel))
       liquidToggleDefinition
     = (usageHeader liquidToggleDefinition
          ++ attributeLines liquidToggleDefinition (take 1 (PanelConfig.props editedPanel))
          ++ addConfiguredProp liquidToggleDefinition [] ("duration", num 1200)
          ++ attributeLines liquidToggleDefinition (drop 2 (PanelConfig.props editedPanel))
          ++ usageFooter)%list
  /\ usageLines
       (animationConfigOf liquidToggleDefinition
          (updateProp "0" (num 1) editedPanel))
       liquidToggleDefinition
     = (usageHeader liquidToggleDefinition
          ++ addConfiguredProp liquidToggleDefinition [] ("0", num 1)
          ++ attributeLines liquidToggleDefinition (PanelConfig.props editedPanel)
          ++ usageFooter)%list.
Proof.
  assert (Hfirst : "duration" ∉ keys (take 1 (PanelConfig.props editedPanel))).
  { apply (bool_decide_unpack _). vm_compute. exact I. }
  assert (Hnew : "0" ∉ keys (PanelConfig.props editedPanel)).
  { apply (bool_decide_unpack _). vm_compute. exact I. }
  assert (Hindex : is_Some (JSObject.arrayIndex "0")).
  { eexists. reflexivity. }
  assert (Hothers : forall k, k ∈ keys (PanelConfig.props editedPanel) ->
                              JSObject.arrayIndex k = None).
  { apply (Forall_forall (fun k => JSObject.arrayIndex k = None)).
    repeat constructor. }
  split; [repeat split; assumption|]. split.
  - exact (proj2 (proj1 (edit_changes_one_attribute liquidToggleDefinition editedPanel
                           "duration" (num 1200))
                    (take 1 (PanelConfig.props editedPanel)) (num 800)
                    (drop 2 (PanelConfig.props editedPanel)) eq_refl Hfirst)).
  - exact (proj2 (proj2 (proj2 (edit_changes_one_attribute liquidToggleDefinition
                                  editedPanel "0" (num 1)) Hnew))
             Hindex Hothers).
Defined.

(** The edit of [duration] on the session panel, and a new prop named
    [toString], which the schema lacks and every object inherits: its
    attribute comes last. *)
Example edit_evaluated :
  usageLines
    (animationConfigOf liquidToggleDefinition
       (updateProp "duration" (num 1200) editedPanel))
    liquidToggleDefinition
  = (usageHeader liquidToggleDefinition
       ++ ["      variant=" +:+ dquote +:+ "success" +:+ dquote;
           "      duration={1200}";
           "      secondaryColor=" +:+ dquote +:+ "#ffffff" +:+ dquote;
           "      disabled=true"]
       ++ usageFooter)%list
  /\ usageLines
       (animationConfigOf liquidToggleDefinition
          (updateProp "toString" (num 1) editedPanel))
       liquidToggleDefinition
     = (usageHeader liquidToggleDefinition
          ++ ["      variant=" +:+ dquote +:+ "success" +:+ dquote;
              "      duration={800}";
              "      secondaryColor=" +:+ dquote +:+ "#ffffff" +:+ dquote;
              "      disabled=true";
              "      toString={1}"]
          ++ usageFooter)%list.
Proof. split; reflexivity. Qed.

Lemma button_cycle_of_three_witness :
  (ComponentDefinition.stateMode liquidButtonDefinition = Some button
   /\ JSMap.get (PanelConfig.props buttonPanel) "loading" = Some (VBoolean false)
   /\ JSMap.get (PanelConfig.props buttonPanel) "success" = Some (VBoolean false))
  /\ handleToggle (Some liquidButtonDefinition)
       (handleToggle (Some liquidButtonDefinition)
          (handleToggle (Some liquidButtonDefinition) buttonPanel))
     = buttonPanel.
Proof.
  split; [repeat split|].
  exact (proj2 (proj2 (button_cycle_of_three liquidButtonDefinition buttonPanel
                         eq_refl eq_refl eq_refl))).
Defined.

Lemma button_never_loading_and_success_witness :
  ComponentDefinition.stateMode liquidButtonDefinition = Some button
  /\ toBoolean
       (property
          (PanelConfig.props (handleToggle (Some liquidButtonDefinition) buttonPanel))
          "loading")
     && toBoolean
          (property
             (PanelConfig.props (handleToggle (Some liquidButtonDefinition) buttonPanel))
             "success")
     = false.
Proof.
  split; [reflexivity|].
  exact (button_never_loading_and_success liquidButtonDefinition buttonPanel eq_refl).
Defined.

Lemma buttonPanel_loading_first :
  "loading" ∉ keys (take 1 (PanelConfig.props buttonPanel)).
Proof. apply (bool_decide_unpack _). vm_compute. exact I. Defined.

Lemma preview_click_and_code_witness :
  (stateModeOf (Some liquidToggleDefinition) = toggle
   /\ ComponentDefinition.stateMode liquidButtonDefinition = Some button
   /\ PanelConfig.props buttonPanel
      = (take 1 (PanelConfig.props buttonPanel)
           ++ ("loading", VBoolean false) :: drop 2 (PanelConfig.props buttonPanel))%list
   /\ ("loading" ∉ keys (take 1 (PanelConfig.props buttonPanel)))
   /\ toBoolean (property (PanelConfig.props buttonPanel) "success") = false
   /\ ComponentDefinition.propSchema liquidButtonDefinition !! "loading"
      = Some (PropConfig.Build_t "Loading State" boolean_t (VBoolean false)
                None None None None
                (Some "Shows a spinning loader when true") None None None))
  /\ generatedCode liquidToggleDefinition
       (handleToggle (Some liquidToggleDefinition) editedPanel)
     = generatedCode liquidToggleDefinition editedPanel
  /\ usageLines
       (animationConfigOf liquidButtonDefinition
          (handleToggle (Some liquidButtonDefinition) buttonPanel))
       liquidButtonDefinition
     = (usageHeader liquidButtonDefinition
          ++ attributeLines liquidButtonDefinition (take 1 (PanelConfig.props buttonPanel))
          ++ ["      loading=true"]
          ++ attributeLines liquidButtonDefinition (drop 2 (PanelConfig.props buttonPanel))
          ++ usageFooter)%list.
Proof.
  split; [repeat split; exact buttonPanel_loading_first|]. split.
  - exact (proj2 (proj1 (preview_click_and_code liquidToggleDefinition editedPanel)
                    eq_refl)).
  - exact (proj2 (proj2 (preview_click_and_code liquidButtonDefinition buttonPanel)
                    (take 1 (PanelConfig.props buttonPanel))
                    (drop 2 (PanelConfig.props buttonPanel)) _
                    eq_refl eq_refl buttonPanel_loading_first eq_refl eq_refl
                    eq_refl eq_refl)).
Defined.

(** The names derived from [MyButton] and from [XMLParser]: a run of
    capitals gets no hyphen. *)
Example kebabCase_examples :
  kebabCase "MyButton" = "my-button"
  /\ kebabCase "XMLParser" = "xmlparser"
  /\ definitionConstant "MyButton" = "my-buttonDefinition".
Proof. repeat split. Qed.

Lemma kebabCase_lower_and_stable_witness :
  isAscii "LiquidRadioGroup" = true
  /\ noUpperLetter (kebabCase "LiquidRadioGroup") = true
  /\ kebabCase (kebabCase "LiquidRadioGroup") = kebabCase "LiquidRadioGroup".
Proof.
  split; [reflexivity|].
  exact (kebabCase_lower_and_stable "LiquidRadioGroup" eq_refl).
Defined.

Lemma kebabCase_hyphens_witness :
  (isAscii "MyButton" = true /\ 0 < boundaries "MyButton")
  /\ kebabCase "MyButton" = withHyphens None "MyButton"
  /\ String.length (kebabCase "MyButton") = 9%nat
  /\ 0 < occurrences "-" (definitionConstant "MyButton").
Proof.
  assert (Hplace : 0 < boundaries "MyButton") by (vm_compute; lia).
  split; [split; [reflexivity | exact Hplace]|].
  destruct (kebabCase_hyphens "MyButton" eq_refl)
    as (Hplaces & Hlength & _ & Hconstant).
  split; [exact Hplaces|]. split; [exact Hlength | exact (Hconstant Hplace)].
Defined.
End MoreEvaluation.
